(** * mirror2s3: a shallow embedding of [Mirror.Run] and its properties

    The Go package mirrors the tree of [git archive HEAD] into a bucket:
    it lists the bucket to learn the MD5 of every stored object, walks the
    tar stream and writes every regular, non-ignored file whose checksum is
    not the recorded one.

    The embedding threads the remote store explicitly and records every
    external call in a trace.  Calls into other packages ([crypto/md5],
    [mime], the bucket driver, the tar reader fed by the git process) are
    answered by a [World]; [md5.Sum] is a section variable. *)

From Stdlib Require Import ZArith Ascii Strings.Byte.
From stdpp Require Import gmap strings list fin_maps.

Local Open Scope string_scope.

(** ** Bytes *)

Abbreviation bytes := (list byte).

#[global] Instance byte_eq_dec : EqDecision byte := Byte.byte_eq_dec.

(** [bytes.Equal]: same length and same contents; a nil slice equals an
    empty one, as both are the empty list here. *)
Definition bytes_Equal (a b : bytes) : bool := bool_decide (a = b).

Definition bytes_of (s : string) : bytes := String.list_byte_of_string s.

(** ** Errors and iterators *)

(** An [error] is modelled by its message. *)
Abbreviation error := string (only parsing).

Inductive IOResult (A : Type) : Type :=
| Got (a : A)
| Failed (err : error).
Arguments Got {A} a.
Arguments Failed {A} err.

(** How a forward-only iterator ends: [io.EOF], or any other error. *)
Inductive IterEnd : Type :=
| EOF
| IterErr (err : error).

(** ** Configuration (lines 26-69) *)

Record Mirror : Type := {
  gitPath : string;
  siteSourcePath : string;
  awsProfile : string;
  awsRegion : string;
  bucketURL : string
}.

Definition WithGitRepoRoot (path : string) (m : Mirror) : Mirror :=
  {| gitPath := gitPath m; siteSourcePath := path; awsProfile := awsProfile m;
     awsRegion := awsRegion m; bucketURL := bucketURL m |}.

Definition WithAwsProfile (name : string) (m : Mirror) : Mirror :=
  {| gitPath := gitPath m; siteSourcePath := siteSourcePath m; awsProfile := name;
     awsRegion := awsRegion m; bucketURL := bucketURL m |}.

Definition WithAwsRegion (name : string) (m : Mirror) : Mirror :=
  {| gitPath := gitPath m; siteSourcePath := siteSourcePath m; awsProfile := awsProfile m;
     awsRegion := name; bucketURL := bucketURL m |}.

Definition WithBucketURL (url : string) (m : Mirror) : Mirror :=
  {| gitPath := gitPath m; siteSourcePath := siteSourcePath m; awsProfile := awsProfile m;
     awsRegion := awsRegion m; bucketURL := url |}.

Definition New (options : list (Mirror -> Mirror)) : Mirror :=
  foldl (fun m opt => opt m)
        {| gitPath := "/usr/bin/git"; siteSourcePath := ""; awsProfile := "";
           awsRegion := ""; bucketURL := "" |}
        options.

(** ** The ignore set (lines 20-24) *)

Definition IgnoredFiles : gset string := {[ ".gitignore" ]}.

(** [_, ok := IgnoredFiles[name]] *)
Definition ignored (name : string) : bool := bool_decide (name ∈ IgnoredFiles).

(** ** Archive entries *)

Definition TypeReg : ascii := "0"%char.
Definition TypeDir : ascii := "5"%char.
Definition TypeSymlink : ascii := "2"%char.

Record Header : Type := {
  Name : string;
  Typeflag : ascii
}.

(** One entry of the tar stream: the header [r.Next()] returns and what
    [ioutil.ReadAll(r)] would return for it. *)
Record TarEntry : Type := {
  header : Header;
  content : IOResult bytes
}.

Definition regular (f : TarEntry) : bool :=
  bool_decide (Typeflag (header f) = TypeReg).

(** ** The bucket *)

Record WriterOptions : Type := {
  ContentType : string
}.

#[global] Instance WriterOptions_eq_dec : EqDecision WriterOptions.
Proof. solve_decision. Defined.

(** A stored object: its bytes, the checksum the driver exposes for it
    (none when it reports no MD5) and the options it was written with. *)
Record RemoteObject : Type := {
  body : bytes;
  exposed_md5 : option bytes;
  written_with : option WriterOptions
}.

(** What the listing iterator yields ([blob.ListObject]); a nil [MD5] is
    [None]. *)
Record ListObject : Type := {
  Key : string;
  MD5 : option bytes
}.

(** The command [getSiteTar] builds (lines 145-151). *)
Record Cmd : Type := {
  Path : string;
  Args : list string;
  Env : list string;
  Dir : string
}.

(** ** The world [Run] executes in *)

Record World : Type := {
  (** [blob.OpenBucket] fails with this error, if any *)
  openErr : option error;
  (** the objects stored in the bucket when the run starts *)
  objects : gmap string RemoteObject;
  (** [itr.Next] fails with the error after yielding that many objects *)
  listFault : option (nat * error);
  (** the error of the n-th [bucket.WriteAll] call of the run, if any *)
  writeFault : nat -> option error;
  (** the checksum the driver exposes for an object freshly written with
      this key and these bytes *)
  reportMD5 : string -> bytes -> option bytes;
  (** [cmd.StdoutPipe] and [cmd.Start] fail with these errors, if any *)
  pipeErr : option error;
  startErr : option error;
  (** what the tar reader over git's standard output yields *)
  archive : list TarEntry;
  archiveEnd : IterEnd;
  (** [mime.TypeByExtension], which consults the system's MIME tables *)
  TypeByExtension : string -> string
}.

(** ** Traces *)

Inductive Event : Type :=
| Setenv (key value : string)
| OpenBucket (url : string)
| ListNext
| StdoutPipe (cmd : Cmd)
| Start (cmd : Cmd)
| TarNext
| ReadAll (name : string)
| Md5Sum (data : bytes)
| Printf (msg : string)
| WriteAll (key : string) (data : bytes) (options : option WriterOptions)
| Close
| Fatal (msg : string).

(** How the call ends: it returns its [error] (nil is [None]), or the
    process exits with a status and nothing deferred runs. *)
Inductive Outcome : Type :=
| Returned (err : option error)
| Exited (status : Z).

Record Execution : Type := {
  (** lines 72-99: environment, bucket, listing, git *)
  setup : list Event;
  (** lines 101-139: one trace per iteration of the archive loop *)
  files : list (list Event);
  (** the deferred [bucket.Close] *)
  teardown : list Event;
  outcome : Outcome;
  (** the objects stored in the bucket when the run ends *)
  remote : gmap string RemoteObject
}.

Definition trace (x : Execution) : list Event :=
  setup x ++ concat (files x) ++ teardown x.

Definition is_upload (e : Event) : bool :=
  match e with WriteAll _ _ _ => true | _ => false end.

Definition is_read (e : Event) : bool :=
  match e with ReadAll _ => true | _ => false end.

Definition is_checksum (e : Event) : bool :=
  match e with Md5Sum _ => true | _ => false end.

(** The [WriteAll] calls of a trace, in order. *)
Definition uploads (t : list Event) : list Event := filter (fun e => is_upload e = true) t.

Definition upload_key (e : Event) : option string :=
  match e with WriteAll k _ _ => Some k | _ => None end.

Definition is_notice (e : Event) : bool :=
  match e with Printf _ => true | _ => false end.

(** The progress notices of a trace, in order. *)
Definition notices (t : list Event) : list Event := filter (fun e => is_notice e = true) t.

(** The [WriteAll] calls of a trace under one key. *)
Definition uploads_under (k : string) (t : list Event) : list Event :=
  filter (fun e => upload_key e = Some k) t.

(** ** Library functions used by [Run] *)

Definition dquote : string := String "034"%char EmptyString.

(** [path.Ext]: the suffix beginning at the final dot in the final
    slash-separated element of the path, empty if there is no dot.  The
    loop inspects the indices [i-1], ..., [0] and stops at a slash. *)
Fixpoint Ext_loop (path : string) (i : nat) : string :=
  match i with
  | O => ""
  | S j =>
      match String.get j path with
      | Some c =>
          if bool_decide (c = "/"%char) then ""
          else if bool_decide (c = "."%char)
               then String.substring j (String.length path - j) path
               else Ext_loop path j
      | None => ""
      end
  end.

Definition Ext (path : string) : string := Ext_loop path (String.length path).

(** ** The bucket handle *)

(** The handle carries the store and the number of [WriteAll] calls made
    through it. *)
Record Bucket : Type := {
  stored : gmap string RemoteObject;
  calls : nat
}.

(** [blob.OpenBucket] *)
Definition blob_OpenBucket (w : World) : IOResult Bucket :=
  match openErr w with
  | Some e => Failed e
  | None => Got {| stored := objects w; calls := 0 |}
  end.

Definition list_object (kv : string * RemoteObject) : ListObject :=
  {| Key := kv.1; MD5 := exposed_md5 kv.2 |}.

(** [bucket.List(nil)]: every stored object once, then [io.EOF], unless
    the iteration breaks before. *)
Definition Bucket_List (w : World) (b : Bucket) : list ListObject * IterEnd :=
  match listFault w with
  | None => (list_object <$> map_to_list (stored b), EOF)
  | Some (n, e) => (take n (list_object <$> map_to_list (stored b)), IterErr e)
  end.

(** [bucket.WriteAll]: a successful call stores the bytes under the key,
    replacing what was there; a failed one stores nothing. *)
Definition Bucket_WriteAll (w : World) (b : Bucket) (key : string) (data : bytes)
    (options : option WriterOptions) : Bucket * option error :=
  match writeFault w (calls b) with
  | Some e => ({| stored := stored b; calls := S (calls b) |}, Some e)
  | None =>
      ({| stored := <[key := {| body := data; exposed_md5 := reportMD5 w key data;
                                written_with := options |}]> (stored b);
          calls := S (calls b) |}, None)
  end.

(** ** [Run] (lines 71-142) and [getSiteTar] (lines 144-161) *)

(** What one iteration of the archive loop does next: [continue], or
    [return] with an error. *)
Inductive Flow : Type :=
| Continue
| Return (err : error).

Section Run.

(** [md5.Sum] of [crypto/md5] *)
Variable md5_Sum : bytes -> bytes.

(** Lines 91-93: an object is remembered only when it exposes an MD5. *)
Definition remember (hashes : gmap string bytes) (obj : ListObject) : gmap string bytes :=
  match MD5 obj with
  | Some sum => <[Key obj := sum]> hashes
  | None => hashes
  end.

(** Lines 83-94: the listing loop.  It ends with the index at [io.EOF],
    and in [log.Fatal] at any other error. *)
Fixpoint listLoop (objs : list ListObject) (fin : IterEnd) (hashes : gmap string bytes)
    : list Event * IOResult (gmap string bytes) :=
  match objs with
  | [] =>
      match fin with
      | EOF => ([ListNext], Got hashes)
      | IterErr e => ([ListNext; Fatal e], Failed e)
      end
  | obj :: rest =>
      let '(evs, r) := listLoop rest fin (remember hashes obj) in
      (ListNext :: evs, r)
  end.

Definition git_archive (m : Mirror) : Cmd :=
  {| Path := gitPath m;
     Args := [gitPath m; "archive"; "--format=tar"; "HEAD"];
     Env := [];
     Dir := siteSourcePath m |}.

(** The tar reader is the rest of the stream and how it ends. *)
Definition getSiteTar (m : Mirror) (w : World)
    : list Event * IOResult (list TarEntry * IterEnd) :=
  let cmd := git_archive m in
  match pipeErr w with
  | Some e => ([StdoutPipe cmd], Failed ("get git stdout: " +:+ e))
  | None =>
      match startErr w with
      | Some e => ([StdoutPipe cmd; Start cmd], Failed ("start git: " +:+ e))
      | None => ([StdoutPipe cmd; Start cmd], Got (archive w, archiveEnd w))
      end
  end.

(** Lines 132-135: the writer options, nil when the extension of the
    name has no known type. *)
Definition writer_options (w : World) (name : string) : option WriterOptions :=
  let contentType := TypeByExtension w (Ext name) in
  if bool_decide (contentType <> "") then Some {| ContentType := contentType |} else None.

(** Lines 110-138: the body of the archive loop after [r.Next()] has
    returned the header of [f]. *)
Definition processFile (w : World) (hashes : gmap string bytes) (b : Bucket) (f : TarEntry)
    : list Event * Bucket * Flow :=
  let name := Name (header f) in
  if negb (regular f) then ([], b, Continue)
  else if ignored name then ([], b, Continue)
  else
    match content f with
    | Failed e =>
        ([ReadAll name], b,
         Return ("read file " +:+ dquote +:+ name +:+ dquote +:+ ": " +:+ e))
    | Got data =>
        let '(compared, same) :=
          match hashes !! name with
          | Some remoteSum => ([Md5Sum data], bytes_Equal (md5_Sum data) remoteSum)
          | None => ([], false)
          end in
        if same
        then (ReadAll name :: compared ++ [Printf ("skipping " +:+ name +:+ "…")],
              b, Continue)
        else
          let options := writer_options w name in
          let '(b', err) := Bucket_WriteAll w b name data options in
          (ReadAll name :: compared
             ++ [Printf ("uploading " +:+ name +:+ "…"); WriteAll name data options],
           b',
           match err with
           | Some e => Return ("upload file: " +:+ e)
           | None => Continue
           end)
    end.

(** Lines 101-139: the archive loop; the result is the error [Run]
    returns, nil after [io.EOF]. *)
Fixpoint tarLoop (w : World) (hashes : gmap string bytes) (b : Bucket)
    (fs : list TarEntry) (fin : IterEnd) : list (list Event) * Bucket * option error :=
  match fs with
  | [] =>
      match fin with
      | EOF => ([[TarNext]], b, None)
      | IterErr e => ([[TarNext]], b, Some ("get next file in tar: " +:+ e))
      end
  | f :: rest =>
      let '(evs, b', flow) := processFile w hashes b f in
      match flow with
      | Return e => ([TarNext :: evs], b', Some e)
      | Continue =>
          let '(its, b'', r) := tarLoop w hashes b' rest fin in
          ((TarNext :: evs) :: its, b'', r)
      end
  end.

Definition Run (m : Mirror) (w : World) : Execution :=
  let env := [Setenv "AWS_REGION" (awsRegion m); Setenv "AWS_PROFILE" (awsProfile m);
              OpenBucket (bucketURL m)] in
  match blob_OpenBucket w with
  | Failed e =>
      {| setup := env; files := []; teardown := [];
         outcome := Returned (Some ("open bucket: " +:+ e));
         remote := objects w |}
  | Got bucket =>
      let '(objs, fin) := Bucket_List w bucket in
      match listLoop objs fin ∅ with
      | (listed, Failed e) =>
          {| setup := env ++ listed; files := []; teardown := [];
             outcome := Exited 1;
             remote := stored bucket |}
      | (listed, Got hashes) =>
          match getSiteTar m w with
          | (started, Failed e) =>
              {| setup := env ++ listed ++ started; files := []; teardown := [Close];
                 outcome := Returned (Some ("get site tar: " +:+ e));
                 remote := stored bucket |}
          | (started, Got (fs, tfin)) =>
              let '(its, bucket', err) := tarLoop w hashes bucket fs tfin in
              {| setup := env ++ listed ++ started; files := its; teardown := [Close];
                 outcome := Returned err;
                 remote := stored bucket' |}
          end
      end
  end.

(** The checksum index [Run] compares against once the listing has
    reached [io.EOF]. *)
Definition index_of (objs : gmap string RemoteObject) : gmap string bytes :=
  foldl remember ∅ (list_object <$> map_to_list objs).

End Run.

(** ** [crypto/md5] (RFC 1321), to run the model on concrete files *)

Module md5.

Local Open Scope Z_scope.

Definition u32 (x : Z) : Z := x mod 2 ^ 32.

Definition rotl (x : Z) (c : Z) : Z :=
  u32 (Z.lor (Z.shiftl x c) (Z.shiftr x (32 - c))).

Definition not32 (x : Z) : Z := Z.lxor x 0xffffffff.

(** floor (2^32 * |sin (i + 1)|) *)
Definition table : list Z :=
  [ 0xd76aa478; 0xe8c7b756; 0x242070db; 0xc1bdceee;
    0xf57c0faf; 0x4787c62a; 0xa8304613; 0xfd469501;
    0x698098d8; 0x8b44f7af; 0xffff5bb1; 0x895cd7be;
    0x6b901122; 0xfd987193; 0xa679438e; 0x49b40821;
    0xf61e2562; 0xc040b340; 0x265e5a51; 0xe9b6c7aa;
    0xd62f105d; 0x02441453; 0xd8a1e681; 0xe7d3fbc8;
    0x21e1cde6; 0xc33707d6; 0xf4d50d87; 0x455a14ed;
    0xa9e3e905; 0xfcefa3f8; 0x676f02d9; 0x8d2a4c8a;
    0xfffa3942; 0x8771f681; 0x6d9d6122; 0xfde5380c;
    0xa4beea44; 0x4bdecfa9; 0xf6bb4b60; 0xbebfbc70;
    0x289b7ec6; 0xeaa127fa; 0xd4ef3085; 0x04881d05;
    0xd9d4d039; 0xe6db99e5; 0x1fa27cf8; 0xc4ac5665;
    0xf4292244; 0x432aff97; 0xab9423a7; 0xfc93a039;
    0x655b59c3; 0x8f0ccc92; 0xffeff47d; 0x85845dd1;
    0x6fa87e4f; 0xfe2ce6e0; 0xa3014314; 0x4e0811a1;
    0xf7537e82; 0xbd3af235; 0x2ad7d2bb; 0xeb86d391 ].

Definition shifts : list Z :=
  [ 7; 12; 17; 22; 7; 12; 17; 22; 7; 12; 17; 22; 7; 12; 17; 22;
    5; 9; 14; 20; 5; 9; 14; 20; 5; 9; 14; 20; 5; 9; 14; 20;
    4; 11; 16; 23; 4; 11; 16; 23; 4; 11; 16; 23; 4; 11; 16; 23;
    6; 10; 15; 21; 6; 10; 15; 21; 6; 10; 15; 21; 6; 10; 15; 21 ].

(** The message, a single 1 bit, zeros up to 56 modulo 64, and the
    length in bits as 8 little-endian bytes. *)
Definition le_bytes (n : nat) (x : Z) : list Z :=
  (fun i => Z.land (Z.shiftr x (8 * Z.of_nat i)) 0xff) <$> seq 0 n.

Definition pad (msg : list Z) : list Z :=
  let len := Z.of_nat (length msg) in
  let zeros := Z.to_nat ((55 - len) mod 64) in
  (msg ++ [0x80] ++ replicate zeros 0 ++ le_bytes 8 (8 * len))%list.

Fixpoint blocks (fuel : nat) (l : list Z) : list (list Z) :=
  match fuel with
  | O => []
  | S n =>
      match l with
      | [] => []
      | _ => take 64 l :: blocks n (drop 64 l)
      end
  end.

Definition word (block : list Z) (j : nat) : Z :=
  nth (4 * j) block 0
  + Z.shiftl (nth (4 * j + 1) block 0) 8
  + Z.shiftl (nth (4 * j + 2) block 0) 16
  + Z.shiftl (nth (4 * j + 3) block 0) 24.

Definition digest : Type := Z * Z * Z * Z.

Definition step (block : list Z) (st : digest) (i : nat) : digest :=
  let '(a, b, c, d) := st in
  let '(f, g) :=
    match (i / 16)%nat with
    | 0%nat => (Z.lor (Z.land b c) (Z.land (not32 b) d), i)
    | 1%nat => (Z.lor (Z.land d b) (Z.land (not32 d) c), ((5 * i + 1) mod 16)%nat)
    | 2%nat => (Z.lxor (Z.lxor b c) d, ((3 * i + 5) mod 16)%nat)
    | _ => (Z.lxor c (Z.lor b (not32 d)), ((7 * i) mod 16)%nat)
    end in
  let f' := u32 (f + a + nth i table 0 + word block g) in
  (d, u32 (b + rotl f' (nth i shifts 0)), b, c).

Definition compress (st : digest) (block : list Z) : digest :=
  let '(a0, b0, c0, d0) := st in
  let '(a, b, c, d) := foldl (step block) st (seq 0 64) in
  (u32 (a0 + a), u32 (b0 + b), u32 (c0 + c), u32 (d0 + d)).

Definition init : digest := (0x67452301, 0xefcdab89, 0x98badcfe, 0x10325476).

Definition to_byte (x : Z) : byte :=
  match Byte.of_N (Z.to_N x) with
  | Some b => b
  | None => x00
  end.

Definition Sum (data : bytes) : bytes :=
  let msg := pad ((fun b => Z.of_N (Byte.to_N b)) <$> data) in
  let '(a, b, c, d) := foldl compress init (blocks (length msg) msg) in
  to_byte <$> (le_bytes 4 a ++ le_bytes 4 b ++ le_bytes 4 c ++ le_bytes 4 d)%list.

(** The digest in hexadecimal, as tools print it. *)
Definition hex_digit (n : Z) : string :=
  String.substring (Z.to_nat n) 1 "0123456789abcdef".

Definition hex (bs : bytes) : string :=
  foldr (fun b acc => let n := Z.of_N (Byte.to_N b) in
                      hex_digit (n / 16) +:+ hex_digit (n mod 16) +:+ acc) "" bs.

End md5.

(** ** Worlds to run the model in *)

(** The types Go's [mime] package knows without any system table. *)
Definition builtinTypes : list (string * string) :=
  [ (".avif", "image/avif");
    (".css", "text/css; charset=utf-8");
    (".gif", "image/gif");
    (".htm", "text/html; charset=utf-8");
    (".html", "text/html; charset=utf-8");
    (".jpeg", "image/jpeg");
    (".jpg", "image/jpeg");
    (".js", "text/javascript; charset=utf-8");
    (".json", "application/json");
    (".mjs", "text/javascript; charset=utf-8");
    (".pdf", "application/pdf");
    (".png", "image/png");
    (".svg", "image/svg+xml");
    (".wasm", "application/wasm");
    (".webp", "image/webp");
    (".xml", "text/xml; charset=utf-8") ].

Fixpoint assoc (ext : string) (table : list (string * string)) : string :=
  match table with
  | [] => ""
  | (k, v) :: rest => if bool_decide (k = ext) then v else assoc ext rest
  end.

(** ASCII upper-case letters to lower case, other bytes as they are. *)
Definition lower_byte (c : ascii) : ascii :=
  let n := nat_of_ascii c in
  if Nat.leb 65 n && Nat.leb n 90 then ascii_of_nat (n + 32) else c.

Fixpoint lower (s : string) : string :=
  match s with
  | EmptyString => EmptyString
  | String c rest => String (lower_byte c) (lower rest)
  end.

(** [mime.TypeByExtension] over the built-in table: the extension as it
    is first, then lower-cased.  The keys of the table are ASCII; an
    extension with other bytes is lower-cased on its ASCII letters only. *)
Definition builtin_TypeByExtension (ext : string) : string :=
  match assoc ext builtinTypes with
  | EmptyString => assoc (lower ext) builtinTypes
  | contentType => contentType
  end.

Definition file (name : string) (data : string) : TarEntry :=
  {| header := {| Name := name; Typeflag := TypeReg |}; content := Got (bytes_of data) |}.

Definition directory (name : string) : TarEntry :=
  {| header := {| Name := name; Typeflag := TypeDir |}; content := Got [] |}.

Definition unreadable (name : string) (err : error) : TarEntry :=
  {| header := {| Name := name; Typeflag := TypeReg |}; content := Failed err |}.

(** An object as an S3-like driver stores it: the listing exposes the
    MD5 of the bytes. *)
Definition object (data : string) : RemoteObject :=
  {| body := bytes_of data; exposed_md5 := Some (md5.Sum (bytes_of data));
     written_with := None |}.

(** An object whose listing entry carries no MD5 (a multipart upload). *)
Definition opaque_object (data : string) : RemoteObject :=
  {| body := bytes_of data; exposed_md5 := None; written_with := None |}.

(** A world without faults: the bucket holds [objs], git exports [fs]. *)
Definition world (objs : gmap string RemoteObject) (fs : list TarEntry) : World :=
  {| openErr := None;
     objects := objs;
     listFault := None;
     writeFault := fun _ => None;
     reportMD5 := fun _ data => Some (md5.Sum data);
     pipeErr := None;
     startErr := None;
     archive := fs;
     archiveEnd := EOF;
     TypeByExtension := builtin_TypeByExtension |}.

Definition site : Mirror :=
  New [WithGitRepoRoot "/srv/site"; WithAwsProfile "example.com";
       WithAwsRegion "us-east-1"; WithBucketURL "s3://example.com"].

(** The same world with a listing that breaks after [n] objects. *)
Definition listing_breaks (w : World) (n : nat) (err : error) : World :=
  {| openErr := openErr w;
     objects := objects w;
     listFault := Some (n, err);
     writeFault := writeFault w;
     reportMD5 := reportMD5 w;
     pipeErr := pipeErr w;
     startErr := startErr w;
     archive := archive w;
     archiveEnd := archiveEnd w;
     TypeByExtension := TypeByExtension w |}.

(** The same world where the [n]-th [WriteAll] call fails. *)
Definition write_breaks (w : World) (n : nat) (err : error) : World :=
  {| openErr := openErr w;
     objects := objects w;
     listFault := listFault w;
     writeFault := fun i => if bool_decide (i = n) then Some err else writeFault w i;
     reportMD5 := reportMD5 w;
     pipeErr := pipeErr w;
     startErr := startErr w;
     archive := archive w;
     archiveEnd := archiveEnd w;
     TypeByExtension := TypeByExtension w |}.

(** The same world where the tar stream breaks after the last entry. *)
Definition archive_breaks (w : World) (err : error) : World :=
  {| openErr := openErr w;
     objects := objects w;
     listFault := listFault w;
     writeFault := writeFault w;
     reportMD5 := reportMD5 w;
     pipeErr := pipeErr w;
     startErr := startErr w;
     archive := archive w;
     archiveEnd := IterErr err;
     TypeByExtension := TypeByExtension w |}.

(** The same world after a run: the bucket holds what the run left. *)
Definition after (w : World) (x : Execution) : World :=
  {| openErr := openErr w;
     objects := remote x;
     listFault := listFault w;
     writeFault := writeFault w;
     reportMD5 := reportMD5 w;
     pipeErr := pipeErr w;
     startErr := startErr w;
     archive := archive w;
     archiveEnd := archiveEnd w;
     TypeByExtension := TypeByExtension w |}.

(** ** Vocabulary of the statements *)

Definition entry_name (f : TarEntry) : string := Name (header f).

(** The bucket handle [Run] starts from. *)
Definition opened (w : World) : Bucket := {| stored := objects w; calls := 0 |}.

(** No stage before the archive loop fails. *)
Definition reaches_archive (w : World) : Prop :=
  openErr w = None /\ listFault w = None /\ pipeErr w = None /\ startErr w = None.

(** The events of the iteration of the archive loop that meets [f]. *)
Definition iteration (md5_Sum : bytes -> bytes) (w : World) (hashes : gmap string bytes)
    (f : TarEntry) : list Event :=
  TarNext :: (processFile md5_Sum w hashes (opened w) f).1.1.

(** The entry is one the loop reads: a regular file outside the ignore set. *)
Definition considered (f : TarEntry) : bool :=
  regular f && negb (ignored (entry_name f)).

(** The archive gives every name one content, as the export of a tree
    does. *)
Definition consistent (fs : list TarEntry) : Prop :=
  forall f f', f ∈ fs -> f' ∈ fs -> entry_name f = entry_name f' -> content f = content f'.

(** The loop writes the entry [f], whose bytes are [data]: it considers
    it, reads it, and the index does not hold the MD5 of the bytes. *)
Definition written (md5_Sum : bytes -> bytes) (hashes : gmap string bytes)
    (f : TarEntry) (data : bytes) : Prop :=
  considered f = true /\ content f = Got data
  /\ hashes !! entry_name f <> Some (md5_Sum data).

(** ** Vocabulary of the further statements *)

(** The four options the package offers, as data, to speak of every
    list of them. *)
Inductive Setting : Type :=
| GitRepoRoot (path : string)
| AwsProfile (name : string)
| AwsRegion (name : string)
| BucketURL (url : string).

Definition option_of (s : Setting) : Mirror -> Mirror :=
  match s with
  | GitRepoRoot path => WithGitRepoRoot path
  | AwsProfile name => WithAwsProfile name
  | AwsRegion name => WithAwsRegion name
  | BucketURL url => WithBucketURL url
  end.

Definition root_of (s : Setting) : option string :=
  match s with GitRepoRoot path => Some path | _ => None end.

Definition profile_of (s : Setting) : option string :=
  match s with AwsProfile name => Some name | _ => None end.

Definition region_of (s : Setting) : option string :=
  match s with AwsRegion name => Some name | _ => None end.

Definition url_of (s : Setting) : option string :=
  match s with BucketURL url => Some url | _ => None end.

(** The argument of the last setting of one kind, the empty string when
    there is none. *)
Definition chosen (pick : Setting -> option string) (ss : list Setting) : string :=
  default "" (last (omap pick ss)).

(** The checksum of the last object of the listing under [k] that
    carries one. *)
Definition remembered (k : string) (objs : list ListObject) : option bytes :=
  last (omap (fun obj => if bool_decide (Key obj = k) then MD5 obj else None) objs).

Definition is_close (e : Event) : bool :=
  match e with Close => true | _ => false end.

Definition is_list_next (e : Event) : bool :=
  match e with ListNext => true | _ => false end.

Definition is_git (e : Event) : bool :=
  match e with StdoutPipe _ | Start _ => true | _ => false end.

(** The calls the archive loop makes. *)
Definition of_loop (e : Event) : bool :=
  match e with
  | TarNext | ReadAll _ | Md5Sum _ | Printf _ | WriteAll _ _ _ => true
  | _ => false
  end.

(** What [Run] does before it opens the bucket. *)
Definition prologue (m : Mirror) : list Event :=
  [Setenv "AWS_REGION" (awsRegion m); Setenv "AWS_PROFILE" (awsProfile m);
   OpenBucket (bucketURL m)].

(** The bytes to write for an entry: those of a considered, readable
    entry whose MD5 the index does not hold under its name. *)
Definition due (md5_Sum : bytes -> bytes) (hashes : gmap string bytes) (f : TarEntry)
    : option bytes :=
  if considered f then
    match content f with
    | Got data =>
        if bool_decide (hashes !! entry_name f = Some (md5_Sum data)) then None else Some data
    | Failed _ => None
    end
  else None.

(** Nothing fails before the archive loop meets entry [i]: no stage
    before the loop fails, the entries before [i] that the loop reads are
    readable, and none of the writes due for them fails. *)
Definition clear_until (md5_Sum : bytes -> bytes) (w : World) (i : nat) : Prop :=
  reaches_archive w
  /\ Forall (fun f => considered f = true -> exists data, content f = Got data)
            (take i (archive w))
  /\ forall n,
       n < length (omap (due md5_Sum (index_of (objects w))) (take i (archive w))) ->
       writeFault w n = None.

Definition upload_of (w : World) (f : TarEntry) (data : bytes) : Event :=
  WriteAll (entry_name f) data (writer_options w (entry_name f)).

(** The progress notice of an entry, if it gets one. *)
Definition notice_of (md5_Sum : bytes -> bytes) (hashes : gmap string bytes) (f : TarEntry)
    : option Event :=
  if considered f then
    match content f with
    | Got data =>
        if bool_decide (hashes !! entry_name f = Some (md5_Sum data))
        then Some (Printf ("skipping " +:+ entry_name f +:+ "…"))
        else Some (Printf ("uploading " +:+ entry_name f +:+ "…"))
    | Failed _ => None
    end
  else None.

(** The object a successful [WriteAll] of [data] under the name of [f]
    stores. *)
Definition stored_for (w : World) (f : TarEntry) (data : bytes) : RemoteObject :=
  {| body := data;
     exposed_md5 := reportMD5 w (entry_name f) data;
     written_with := writer_options w (entry_name f) |}.

(** The same world where git exports only the first [n] entries. *)
Definition first_entries (n : nat) (w : World) : World :=
  {| openErr := openErr w;
     objects := objects w;
     listFault := listFault w;
     writeFault := writeFault w;
     reportMD5 := reportMD5 w;
     pipeErr := pipeErr w;
     startErr := startErr w;
     archive := take n (archive w);
     archiveEnd := EOF;
     TypeByExtension := TypeByExtension w |}.

(** * Properties *)

(** ** [md5.Sum] on the test suite of RFC 1321 and on longer messages *)

Example md5_empty : md5.hex (md5.Sum []) = "d41d8cd98f00b204e9800998ecf8427e".
Proof. vm_compute. reflexivity. Qed.

Example md5_abc : md5.hex (md5.Sum (bytes_of "abc")) = "900150983cd24fb0d6963f7d28e17f72".
Proof. vm_compute. reflexivity. Qed.

Example md5_two_blocks :
  md5.hex (md5.Sum (replicate 119 "c"%byte)) = "e259897e3e8fb46951621b2cc1ff17f9".
Proof. vm_compute. reflexivity. Qed.

Example md5_full_block :
  md5.hex (md5.Sum (replicate 64 "b"%byte)) = "0b649bcb5a82868817fec9a6e709d233".
Proof. vm_compute. reflexivity. Qed.

(** ** Scenarios of the specification, run *)

Example scenario_changed_and_new :
  let w := world {[ "index.html" := object "old" ]}
                 [file "index.html" "new content"; file "readme.md" "hi"] in
  let x := Run md5.Sum site w in
  uploads (trace x)
    = [ WriteAll "index.html" (bytes_of "new content")
          (Some {| ContentType := "text/html; charset=utf-8" |});
        WriteAll "readme.md" (bytes_of "hi") None ]
  /\ outcome x = Returned None.
Proof. vm_compute. split; reflexivity. Qed.

Example scenario_same :
  let w := world {[ "a.txt" := object "same" ]} [file "a.txt" "same"] in
  let x := Run md5.Sum site w in
  uploads (trace x) = []
  /\ notices (trace x) = [Printf "skipping a.txt…"].
Proof. vm_compute. split; reflexivity. Qed.

(** ** Lists of events *)

Lemma elem_of_concat {A} (x : A) (ls : list (list A)) :
  x ∈ concat ls <-> exists l, l ∈ ls /\ x ∈ l.
Proof.
  rewrite list_elem_of_In, in_concat. split; intros (l & H1 & H2); exists l;
    rewrite ?list_elem_of_In in *; split; assumption.
Qed.

Lemma filter_empty {A} (P : A -> Prop) `{!forall x, Decision (P x)} (l : list A) :
  filter P l = [] <-> Forall (fun x => ~ P x) l.
Proof.
  induction l as [|x l IH]; [split; [constructor|reflexivity]|].
  rewrite filter_cons, Forall_cons. destruct (decide (P x)).
  - split; [discriminate|]. intros [? _]. contradiction.
  - rewrite IH. split; [intros ?; split; assumption|intros [_ ?]; assumption].
Qed.

Lemma uploads_empty (t : list Event) :
  uploads t = [] <-> Forall (fun e => is_upload e = false) t.
Proof.
  unfold uploads. rewrite filter_empty. apply Forall_proper; [|reflexivity].
  intros e. destruct (is_upload e); split; congruence.
Qed.

Lemma uploads_under_empty k (t : list Event) :
  uploads t = [] -> uploads_under k t = [].
Proof.
  rewrite uploads_empty. unfold uploads_under. rewrite filter_empty.
  intros H. eapply Forall_impl; [exact H|].
  intros e He Hk. destruct e; discriminate.
Qed.

Lemma in_files_in_trace (x : Execution) evs e :
  evs ∈ files x -> e ∈ evs -> e ∈ trace x.
Proof.
  intros Hevs He. unfold trace. apply elem_of_app. right. apply elem_of_app. left.
  apply elem_of_concat. exists evs. split; assumption.
Qed.

(** ** The checksum index *)

Lemma listLoop_EOF objs hashes :
  listLoop objs EOF hashes
  = (replicate (S (length objs)) ListNext, Got (foldl remember hashes objs)).
Proof.
  revert hashes. induction objs as [|obj rest IH]; intros hashes; simpl.
  - reflexivity.
  - rewrite IH. reflexivity.
Qed.

Lemma listLoop_IterErr objs e hashes :
  listLoop objs (IterErr e) hashes
  = ((replicate (S (length objs)) ListNext ++ [Fatal e])%list, Failed e).
Proof.
  revert hashes. induction objs as [|obj rest IH]; intros hashes; simpl.
  - reflexivity.
  - rewrite IH. reflexivity.
Qed.

Lemma foldl_remember_lookup (l : list (string * RemoteObject)) (hashes : gmap string bytes) k :
  NoDup l.*1 ->
  foldl remember hashes (list_object <$> l) !! k
  = match (list_to_map l : gmap string RemoteObject) !! k with
    | Some o => match exposed_md5 o with Some sum => Some sum | None => hashes !! k end
    | None => hashes !! k
    end.
Proof.
  revert hashes. induction l as [|[k0 o0] l IH]; intros hashes Hnd; simpl.
  - rewrite lookup_empty. reflexivity.
  - apply NoDup_cons in Hnd as [Hk0 Hnd]. rewrite IH by assumption.
    unfold remember, list_object; simpl.
    destruct (decide (k0 = k)) as [->|Hne].
    + rewrite lookup_insert_eq.
      rewrite (not_elem_of_list_to_map_1 _ _ Hk0).
      destruct (exposed_md5 o0); [apply lookup_insert_eq | reflexivity].
    + rewrite lookup_insert_ne by assumption.
      destruct (list_to_map l !! k) as [o|] eqn:E.
      * destruct (exposed_md5 o); [reflexivity|].
        destruct (exposed_md5 o0); [apply lookup_insert_ne; assumption | reflexivity].
      * destruct (exposed_md5 o0); [apply lookup_insert_ne; assumption | reflexivity].
Qed.

(** The index holds exactly the checksums the stored objects expose. *)
Lemma index_of_lookup (objs : gmap string RemoteObject) k :
  index_of objs !! k = objs !! k ≫= exposed_md5.
Proof.
  unfold index_of. rewrite foldl_remember_lookup by apply NoDup_fst_map_to_list.
  rewrite list_to_map_to_list, lookup_empty.
  destruct (objs !! k) as [o|]; simpl; [destruct (exposed_md5 o)|]; reflexivity.
Qed.

(** ** The shape of a run *)

Section Shape.

Variable md5_Sum : bytes -> bytes.

(** The events of an iteration do not depend on the bucket handle. *)
Lemma processFile_events w hashes b b' f :
  (processFile md5_Sum w hashes b f).1.1 = (processFile md5_Sum w hashes b' f).1.1.
Proof.
  unfold processFile.
  destruct (negb (regular f)); [reflexivity|].
  destruct (ignored _); [reflexivity|].
  destruct (content f) as [data|e]; [|reflexivity].
  destruct (match hashes !! _ with Some _ => _ | None => _ end) as [compared same].
  destruct same; [reflexivity|].
  unfold Bucket_WriteAll.
  destruct (writeFault w (calls b)), (writeFault w (calls b')); reflexivity.
Qed.

(** What [Run] does when no stage before the archive loop fails. *)
Lemma Run_reaches_archive m w :
  reaches_archive w ->
  exists listed started,
    setup (Run md5_Sum m w) = (listed ++ started)%list
    /\ Forall (fun e => is_upload e = false) (listed ++ started)
    /\ teardown (Run md5_Sum m w) = [Close]
    /\ files (Run md5_Sum m w)
       = (tarLoop md5_Sum w (index_of (objects w)) (opened w) (archive w) (archiveEnd w)).1.1
    /\ remote (Run md5_Sum m w)
       = stored (tarLoop md5_Sum w (index_of (objects w)) (opened w) (archive w) (archiveEnd w)).1.2
    /\ outcome (Run md5_Sum m w)
       = Returned (tarLoop md5_Sum w (index_of (objects w)) (opened w) (archive w) (archiveEnd w)).2.
Proof.
  intros (Ho & Hl & Hp & Hs).
  unfold Run, blob_OpenBucket, Bucket_List, getSiteTar. rewrite Ho, Hl, Hp, Hs. simpl.
  rewrite listLoop_EOF.
  fold (opened w). fold (index_of (objects w)).
  destruct (tarLoop _ _ _ _ _ _) as [[its b'] err]. simpl.
  eexists (_ :: _ :: _ :: _ :: replicate _ ListNext), [_; _].
  split; [reflexivity|]. split; [|repeat split].
  apply Forall_app. split; [|repeat constructor].
  repeat (apply Forall_cons; split; [reflexivity|]).
  apply Forall_forall. intros e He. apply elem_of_replicate in He as [-> _]. reflexivity.
Qed.

Lemma no_upload_in_replicate n :
  Forall (fun e => is_upload e = false) (replicate n ListNext).
Proof.
  apply Forall_forall. intros x Hx. apply elem_of_replicate in Hx as [-> _]. reflexivity.
Qed.

Ltac no_uploads :=
  repeat first
    [ apply Forall_nil_2
    | apply no_upload_in_replicate
    | apply Forall_cons; split; [reflexivity|]
    | apply Forall_app; split ].

Lemma Run_stops_early m w :
  ~ reaches_archive w ->
  files (Run md5_Sum m w) = []
  /\ remote (Run md5_Sum m w) = objects w
  /\ Forall (fun e => is_upload e = false) (trace (Run md5_Sum m w))
  /\ outcome (Run md5_Sum m w) <> Returned None.
Proof.
  intros Hn. unfold trace, Run, blob_OpenBucket, Bucket_List, getSiteTar.
  destruct (openErr w) as [e|] eqn:Ho; simpl.
  { repeat split; [no_uploads|discriminate]. }
  destruct (listFault w) as [[n e]|] eqn:Hl.
  { rewrite listLoop_IterErr. simpl. repeat split; [no_uploads|discriminate]. }
  rewrite listLoop_EOF.
  destruct (pipeErr w) as [e|] eqn:Hp; simpl.
  { repeat split; [no_uploads|discriminate]. }
  destruct (startErr w) as [e|] eqn:Hs; simpl.
  { repeat split; [no_uploads|discriminate]. }
  exfalso. apply Hn. repeat split; assumption.
Qed.

Lemma reaches_archive_dec w : reaches_archive w \/ ~ reaches_archive w.
Proof.
  unfold reaches_archive.
  destruct (openErr w), (listFault w), (pipeErr w), (startErr w);
    solve [left; repeat split | right; intros (? & ? & ? & ?); discriminate].
Qed.

(** An iteration exists only when the archive loop is entered. *)
Lemma Run_iterates m w i evs :
  files (Run md5_Sum m w) !! i = Some evs -> reaches_archive w.
Proof.
  intros Hi. destruct (reaches_archive_dec w) as [H|H]; [assumption|].
  apply (Run_stops_early m) in H as (Hf & _). rewrite Hf in Hi. discriminate.
Qed.

End Shape.

(** ** One iteration of the archive loop *)

Section Iteration.

Variable md5_Sum : bytes -> bytes.
Variable w : World.
Variable hashes : gmap string bytes.

Lemma considered_spec f :
  considered f = true <-> regular f = true /\ ignored (entry_name f) = false.
Proof.
  unfold considered. rewrite andb_true_iff, negb_true_iff. reflexivity.
Qed.

Lemma iteration_not_considered f :
  considered f = false -> iteration md5_Sum w hashes f = [TarNext].
Proof.
  unfold considered, iteration, processFile, entry_name. intros H.
  destruct (regular f); simpl in *; [|reflexivity].
  apply negb_false_iff in H. rewrite H. reflexivity.
Qed.

Lemma iteration_unreadable f e :
  considered f = true -> content f = Failed e ->
  iteration md5_Sum w hashes f = [TarNext; ReadAll (entry_name f)].
Proof.
  intros [Hr Hi]%considered_spec Hc. unfold iteration, processFile, entry_name in *.
  rewrite Hr, Hi, Hc. reflexivity.
Qed.

Lemma iteration_same f data :
  considered f = true -> content f = Got data ->
  hashes !! entry_name f = Some (md5_Sum data) ->
  iteration md5_Sum w hashes f
  = [TarNext; ReadAll (entry_name f); Md5Sum data;
     Printf ("skipping " +:+ entry_name f +:+ "…")].
Proof.
  intros [Hr Hi]%considered_spec Hc Hh. unfold iteration, processFile, entry_name in *.
  rewrite Hr, Hi, Hc, Hh. simpl. unfold bytes_Equal.
  rewrite bool_decide_eq_true_2 by reflexivity. reflexivity.
Qed.

Lemma iteration_differs f data remoteSum :
  considered f = true -> content f = Got data ->
  hashes !! entry_name f = Some remoteSum -> md5_Sum data <> remoteSum ->
  iteration md5_Sum w hashes f
  = [TarNext; ReadAll (entry_name f); Md5Sum data;
     Printf ("uploading " +:+ entry_name f +:+ "…");
     WriteAll (entry_name f) data (writer_options w (entry_name f))].
Proof.
  intros [Hr Hi]%considered_spec Hc Hh Hne. unfold iteration, processFile, entry_name in *.
  rewrite Hr, Hi, Hc, Hh. simpl. unfold bytes_Equal.
  rewrite bool_decide_eq_false_2 by assumption.
  unfold Bucket_WriteAll. destruct (writeFault w _); reflexivity.
Qed.

Lemma iteration_absent f data :
  considered f = true -> content f = Got data ->
  hashes !! entry_name f = None ->
  iteration md5_Sum w hashes f
  = [TarNext; ReadAll (entry_name f);
     Printf ("uploading " +:+ entry_name f +:+ "…");
     WriteAll (entry_name f) data (writer_options w (entry_name f))].
Proof.
  intros [Hr Hi]%considered_spec Hc Hh. unfold iteration, processFile, entry_name in *.
  rewrite Hr, Hi, Hc, Hh. simpl.
  unfold Bucket_WriteAll. destruct (writeFault w _); reflexivity.
Qed.

(** The five shapes an iteration can have. *)
Lemma iteration_shape f :
  (considered f = false /\ iteration md5_Sum w hashes f = [TarNext])
  \/ (considered f = true /\ exists e,
        content f = Failed e
        /\ iteration md5_Sum w hashes f = [TarNext; ReadAll (entry_name f)])
  \/ (considered f = true /\ exists data,
        content f = Got data /\ hashes !! entry_name f = Some (md5_Sum data)
        /\ iteration md5_Sum w hashes f
           = [TarNext; ReadAll (entry_name f); Md5Sum data;
              Printf ("skipping " +:+ entry_name f +:+ "…")])
  \/ (considered f = true /\ exists data,
        content f = Got data /\ hashes !! entry_name f <> Some (md5_Sum data)
        /\ uploads (iteration md5_Sum w hashes f)
           = [WriteAll (entry_name f) data (writer_options w (entry_name f))]
        /\ forall k, uploads_under k (iteration md5_Sum w hashes f)
                     = if decide (entry_name f = k)
                       then [WriteAll (entry_name f) data (writer_options w (entry_name f))]
                       else []).
Proof.
  destruct (considered f) eqn:Hc; [right|left; split; [reflexivity|]].
  - destruct (content f) as [data|e] eqn:Hd; [right|left; split; [reflexivity|]].
    + destruct (hashes !! entry_name f) as [remoteSum|] eqn:Hh.
      * destruct (decide (md5_Sum data = remoteSum)) as [<-|Hne].
        -- left. split; [reflexivity|]. exists data. repeat split.
           apply iteration_same; assumption.
        -- right. split; [reflexivity|]. exists data.
           rewrite (iteration_differs f data remoteSum) by assumption.
           repeat split; [congruence|].
           intros k. unfold uploads_under. rewrite !filter_cons, filter_nil. simpl.
           repeat (destruct (decide _); try congruence).
      * right. split; [reflexivity|]. exists data.
        rewrite (iteration_absent f data) by assumption.
        repeat split; [discriminate|].
        intros k. unfold uploads_under. rewrite !filter_cons, filter_nil. simpl.
        repeat (destruct (decide _); try congruence).
    + exists e. split; [reflexivity|]. apply (iteration_unreadable f e); assumption.
  - apply iteration_not_considered. assumption.
Qed.

(** Every write of an iteration is the write of the entry's bytes under
    the entry's name. *)
Lemma iteration_upload f e :
  e ∈ iteration md5_Sum w hashes f -> is_upload e = true ->
  exists data,
    e = WriteAll (entry_name f) data (writer_options w (entry_name f))
    /\ considered f = true /\ content f = Got data
    /\ hashes !! entry_name f <> Some (md5_Sum data).
Proof.
  intros He Hu.
  assert (Hin : e ∈ uploads (iteration md5_Sum w hashes f)).
  { apply list_elem_of_filter. split; assumption. }
  destruct (iteration_shape f)
    as [[_ E]|[[_ (x & _ & E)]|[[_ (x & _ & _ & E)]|[Hc (data & Hd & Hh & E & _)]]]];
    try (rewrite E in Hin; vm_compute in Hin; apply elem_of_nil in Hin; destruct Hin).
  rewrite E in Hin. apply list_elem_of_singleton in Hin as ->.
  exists data. repeat split; assumption.
Qed.

Lemma iteration_uploads_under f k :
  entry_name f <> k -> uploads_under k (iteration md5_Sum w hashes f) = [].
Proof.
  intros Hne.
  destruct (iteration_shape f)
    as [[_ E]|[[_ (x & _ & E)]|[[_ (x & _ & _ & E)]|[Hc (data & Hd & Hh & _ & E)]]]];
    try (rewrite E; reflexivity).
  rewrite E. destruct (decide _); [contradiction|reflexivity].
Qed.

End Iteration.

(** ** The archive loop *)

Section Loop.

Variable md5_Sum : bytes -> bytes.
Variable w : World.
Variable hashes : gmap string bytes.

Let step := processFile md5_Sum w hashes.
Let loop := tarLoop md5_Sum w hashes.
Let iter := iteration md5_Sum w hashes.

Lemma step_events b f : TarNext :: (step b f).1.1 = iter f.
Proof. unfold iter, iteration, step. f_equal. apply processFile_events. Qed.

Lemma step_passed b f :
  considered f = false -> (step b f).1.2 = b /\ (step b f).2 = Continue.
Proof.
  unfold considered, step, processFile, entry_name. intros H.
  destruct (regular f); simpl in *; [|split; reflexivity].
  apply negb_false_iff in H. rewrite H. split; reflexivity.
Qed.

Lemma step_unreadable b f e :
  considered f = true -> content f = Failed e ->
  (step b f).1.2 = b
  /\ (step b f).2
     = Return ("read file " +:+ dquote +:+ entry_name f +:+ dquote +:+ ": " +:+ e).
Proof.
  intros [Hr Hi]%considered_spec Hc. unfold step, processFile, entry_name in *.
  rewrite Hr, Hi, Hc. split; reflexivity.
Qed.

Lemma step_same b f data :
  considered f = true -> content f = Got data ->
  hashes !! entry_name f = Some (md5_Sum data) ->
  (step b f).1.2 = b /\ (step b f).2 = Continue.
Proof.
  intros [Hr Hi]%considered_spec Hc Hh. unfold step, processFile, entry_name in *.
  rewrite Hr, Hi, Hc, Hh. simpl. unfold bytes_Equal.
  rewrite bool_decide_eq_true_2 by reflexivity. split; reflexivity.
Qed.

Lemma step_upload b f data :
  considered f = true -> content f = Got data ->
  hashes !! entry_name f <> Some (md5_Sum data) ->
  let written := Bucket_WriteAll w b (entry_name f) data (writer_options w (entry_name f)) in
  (step b f).1.2 = written.1
  /\ (step b f).2 = match written.2 with
                    | Some e => Return ("upload file: " +:+ e)
                    | None => Continue
                    end.
Proof.
  intros [Hr Hi]%considered_spec Hc Hh. unfold step, processFile, entry_name in *.
  rewrite Hr, Hi, Hc. simpl.
  destruct (hashes !! Name (header f)) as [remoteSum|] eqn:E.
  - unfold bytes_Equal. rewrite bool_decide_eq_false_2 by congruence.
    destruct (Bucket_WriteAll _ _ _ _ _) as [b' err]. split; reflexivity.
  - destruct (Bucket_WriteAll _ _ _ _ _) as [b' err]. split; reflexivity.
Qed.

(** The iterations are those of a prefix of the archive, followed by
    the one that meets the end of the stream if the loop gets there. *)
Lemma loop_files b fs fin :
  exists n rest,
    (loop b fs fin).1.1 = ((iter <$> take n fs) ++ rest)%list
    /\ (rest = [] \/ rest = [[TarNext]] /\ length fs <= n).
Proof.
  revert b. induction fs as [|f fs IH]; intros b.
  - exists 0, [[TarNext]]. unfold loop; simpl. destruct fin; (split; [reflexivity|]);
      right; split; reflexivity || lia.
  - unfold loop; simpl. fold step.
    pose proof (step_events b f) as Hev.
    destruct (step b f) as [[evs b'] flow]. simpl in Hev.
    destruct flow as [|e].
    + destruct (IH b') as (n & rest & Hfs & Hrest). fold loop.
      destruct (loop b' fs fin) as [[its b''] r]. simpl in *.
      exists (S n), rest. simpl. rewrite Hev, Hfs. split; [reflexivity|].
      destruct Hrest as [->|[-> Hn]]; [left; reflexivity|right; split; [reflexivity|lia]].
    + exists 1, []. simpl. rewrite Hev. split; [reflexivity|left; reflexivity].
Qed.

Lemma loop_iteration b fs fin i f evs :
  fs !! i = Some f -> (loop b fs fin).1.1 !! i = Some evs -> evs = iter f.
Proof.
  intros Hf Hi. destruct (loop_files b fs fin) as (n & rest & E & Hrest).
  rewrite E in Hi. apply lookup_lt_Some in Hf as Hlt.
  destruct (decide (i < n)) as [Hin|Hin].
  - rewrite lookup_app_l in Hi by (rewrite length_fmap, length_take; lia).
    rewrite list_lookup_fmap, lookup_take_lt, Hf in Hi by assumption.
    simpl in Hi. congruence.
  - destruct Hrest as [->|[-> Hn]].
    + rewrite app_nil_r in Hi. apply lookup_lt_Some in Hi.
      rewrite length_fmap, length_take in Hi. lia.
    + lia.
Qed.

Lemma loop_member b fs fin evs :
  evs ∈ (loop b fs fin).1.1 -> evs = [TarNext] \/ exists f, f ∈ fs /\ evs = iter f.
Proof.
  intros Hin. destruct (loop_files b fs fin) as (n & rest & E & Hrest).
  rewrite E in Hin. apply elem_of_app in Hin as [Hin|Hin].
  - right. apply list_elem_of_fmap in Hin as (f & -> & Hf).
    exists f. split; [|reflexivity]. eapply subseteq_take; eassumption.
  - left. destruct Hrest as [->|[-> _]].
    + apply elem_of_nil in Hin. destruct Hin.
    + apply list_elem_of_singleton in Hin. assumption.
Qed.

(** Every write of the loop is the write of an entry it considers. *)
Lemma loop_upload b fs fin e :
  e ∈ concat (loop b fs fin).1.1 -> is_upload e = true ->
  exists f data,
    f ∈ fs /\ considered f = true /\ content f = Got data
    /\ hashes !! entry_name f <> Some (md5_Sum data)
    /\ e = WriteAll (entry_name f) data (writer_options w (entry_name f)).
Proof.
  intros Hin Hu. apply elem_of_concat in Hin as (evs & Hevs & He).
  apply loop_member in Hevs as [->|(f & Hf & ->)].
  - apply list_elem_of_singleton in He as ->. discriminate.
  - apply iteration_upload in He as (data & -> & Hc & Hd & Hh); [|assumption].
    exists f, data. repeat split; assumption.
Qed.

Lemma no_uploads_under_foreign k (l : list TarEntry) :
  k ∉ entry_name <$> l -> uploads_under k (concat (iter <$> l)) = [].
Proof.
  induction l as [|f l IH]; intros Hk; [reflexivity|].
  rewrite fmap_cons, not_elem_of_cons in Hk. destruct Hk as [Hf Hl].
  rewrite fmap_cons. cbn [concat].
  unfold uploads_under in *. rewrite filter_app, IH by assumption.
  rewrite app_nil_r. apply iteration_uploads_under. congruence.
Qed.

(** With distinct names, only the iteration that meets an entry writes
    under its name. *)
Lemma loop_uploads_under b fs fin i f evs :
  NoDup (entry_name <$> fs) ->
  fs !! i = Some f -> (loop b fs fin).1.1 !! i = Some evs ->
  uploads_under (entry_name f) (concat (loop b fs fin).1.1)
  = uploads_under (entry_name f) evs.
Proof.
  intros Hnd Hf Hi.
  pose proof (loop_iteration b fs fin i f evs Hf Hi) as ->.
  destruct (loop_files b fs fin) as (n & rest & E & Hrest).
  rewrite E in Hi |- *. apply lookup_lt_Some in Hf as Hlt.
  assert (Hin : i < n).
  { destruct (decide (i < n)) as [|Hge]; [assumption|].
    destruct Hrest as [->|[-> Hn]]; [|lia].
    rewrite app_nil_r in Hi. apply lookup_lt_Some in Hi.
    rewrite length_fmap, length_take in Hi. lia. }
  rewrite <- (take_drop_middle fs i f Hf) in Hnd |- *.
  rewrite fmap_app, fmap_cons in Hnd.
  apply NoDup_app in Hnd as (_ & Hpre & Hpost).
  apply NoDup_cons in Hpost as [Hpost _].
  assert (Hpre' : entry_name f ∉ entry_name <$> take i fs).
  { intros H. apply (Hpre _ H). left. }
  rewrite take_app, length_take, Nat.min_l by lia.
  rewrite (take_ge (take i fs)) by (rewrite length_take; lia).
  destruct (n - i) as [|k] eqn:Hk; [lia|]. cbn [take].
  rewrite fmap_app, fmap_cons, !concat_app. cbn [concat].
  unfold uploads_under in *. rewrite !filter_app.
  pose proof (no_uploads_under_foreign _ _ Hpre') as H1.
  assert (H2 : uploads_under (entry_name f) (concat (iter <$> take k (drop (S i) fs))) = []).
  { apply no_uploads_under_foreign.
    intros H. apply Hpost. apply list_elem_of_fmap in H as (g & Hg & Hin').
    apply list_elem_of_fmap. exists g. split; [assumption|].
    eapply subseteq_take; eassumption. }
  assert (H3 : uploads_under (entry_name f) (concat rest) = []).
  { destruct Hrest as [->|[-> _]]; reflexivity. }
  unfold uploads_under in H1, H2, H3. rewrite H1, H2, H3, !app_nil_r. reflexivity.
Qed.

End Loop.

(** ** The bucket along the archive loop *)

Section Store.

Variable md5_Sum : bytes -> bytes.
Variable w : World.
Variable hashes : gmap string bytes.

Let step := processFile md5_Sum w hashes.
Let loop := tarLoop md5_Sum w hashes.
Let iter := iteration md5_Sum w hashes.

Lemma written_dec f :
  (exists data, written md5_Sum hashes f data) \/ (forall data, ~ written md5_Sum hashes f data).
Proof.
  unfold written. destruct (considered f); [|right; intros ? (? & _); discriminate].
  destruct (content f) as [data|e]; [|right; intros ? (_ & ? & _); discriminate].
  destruct (decide (hashes !! entry_name f = Some (md5_Sum data))) as [E|E].
  - right. intros d (_ & [= <-] & H). contradiction.
  - left. exists data. repeat split. assumption.
Qed.

(** The bucket after an iteration: untouched, or written once. *)
Lemma step_bucket b f :
  ((forall data, ~ written md5_Sum hashes f data) /\ (step b f).1.2 = b /\ uploads (iter f) = [])
  \/ (exists data,
        written md5_Sum hashes f data
        /\ (step b f).1.2
           = (Bucket_WriteAll w b (entry_name f) data (writer_options w (entry_name f))).1
        /\ uploads (iter f)
           = [WriteAll (entry_name f) data (writer_options w (entry_name f))]).
Proof.
  destruct (iteration_shape md5_Sum w hashes f)
    as [[Hc E]|[[Hc (e & Hd & E)]|[[Hc (d & Hd & Hh & E)]|[Hc (d & Hd & Hh & E & _)]]]].
  - left. split; [intros ? (? & _); congruence|].
    split; [apply step_passed; assumption|]. unfold iter. rewrite E. reflexivity.
  - left. split; [intros ? (_ & ? & _); congruence|].
    split; [eapply step_unreadable; eassumption|]. unfold iter. rewrite E. reflexivity.
  - left. split; [intros d' (_ & Hd' & H); congruence|].
    split; [eapply step_same; eassumption|]. unfold iter. rewrite E. reflexivity.
  - right. exists d. split; [repeat split; assumption|].
    split; [|assumption]. apply step_upload; assumption.
Qed.

Lemma WriteAll_calls b key data options :
  calls (Bucket_WriteAll w b key data options).1 = S (calls b).
Proof. unfold Bucket_WriteAll. destruct (writeFault w (calls b)); reflexivity. Qed.

Lemma step_calls b f :
  calls (step b f).1.2 = calls b + length (uploads (iter f)).
Proof.
  destruct (step_bucket b f) as [(_ & -> & ->)|(data & _ & -> & ->)].
  - simpl. lia.
  - rewrite WriteAll_calls. simpl. lia.
Qed.

(** Whatever holds of the bucket and is kept by the writes of the
    entries the loop writes, holds when the loop ends. *)
Lemma loop_invariant (P : Bucket -> Prop) b fs fin :
  P b ->
  (forall b' f data,
     f ∈ fs -> written md5_Sum hashes f data -> P b' ->
     P (Bucket_WriteAll w b' (entry_name f) data (writer_options w (entry_name f))).1) ->
  P (loop b fs fin).1.2.
Proof.
  revert b. induction fs as [|f fs IH]; intros b Hb Hw.
  - unfold loop; simpl. destruct fin; assumption.
  - assert (Hb' : P (step b f).1.2).
    { destruct (step_bucket b f) as [(_ & -> & _)|(data & Hd & -> & _)]; [assumption|].
      apply Hw; [left|assumption|assumption]. }
    unfold loop; simpl. fold step.
    destruct (step b f) as [[evs b'] flow]. simpl in Hb'.
    destruct flow as [|e]; [|assumption].
    specialize (IH b' Hb'). fold loop.
    destruct (loop b' fs fin) as [[its b''] r]. simpl in *.
    apply IH. intros b0 f0 data Hf0. apply Hw. right. assumption.
Qed.

(** A loop that ends without error has met every entry and the end of
    the stream. *)
Lemma loop_success b fs fin :
  (loop b fs fin).2 = None ->
  (loop b fs fin).1.1 = ((iter <$> fs) ++ [[TarNext]])%list
  /\ fin = EOF
  /\ Forall (fun f => considered f = true -> exists data, content f = Got data) fs.
Proof.
  revert b. induction fs as [|f fs IH]; intros b.
  - unfold loop; simpl. destruct fin; [|discriminate]. repeat split. constructor.
  - unfold loop; simpl. fold step.
    pose proof (step_events md5_Sum w hashes b f) as Hev. fold step iter in Hev.
    assert (Hread : (step b f).2 = Continue ->
                    considered f = true -> exists data, content f = Got data).
    { intros Hflow Hc. destruct (content f) as [data|e] eqn:Hd; [exists data; reflexivity|].
      destruct (step_unreadable md5_Sum w hashes b f e Hc Hd) as [_ H].
      fold step in H. congruence. }
    destruct (step b f) as [[evs b'] flow]. simpl in Hev, Hread.
    destruct flow as [|e]; [|discriminate].
    specialize (IH b'). fold loop. fold loop in IH.
    destruct (loop b' fs fin) as [[its b''] r]. simpl in *.
    intros Hr. destruct (IH Hr) as (-> & -> & Hall).
    rewrite Hev. repeat split. constructor; [apply Hread; reflexivity|assumption].
Qed.

End Store.

(** ** How the archive loop fails *)

Section Failures.

Variable md5_Sum : bytes -> bytes.
Variable w : World.
Variable hashes : gmap string bytes.

Let step := processFile md5_Sum w hashes.
Let loop := tarLoop md5_Sum w hashes.
Let iter := iteration md5_Sum w hashes.

Lemma loop_read_failure b fs fin i f e evs :
  fs !! i = Some f -> considered f = true -> content f = Failed e ->
  (loop b fs fin).1.1 !! i = Some evs ->
  (loop b fs fin).2
  = Some ("read file " +:+ dquote +:+ entry_name f +:+ dquote +:+ ": " +:+ e).
Proof.
  revert b i. induction fs as [|f0 fs IH]; intros b i Hf Hc Hd; [discriminate Hf|].
  unfold loop; simpl. fold step.
  destruct i as [|i]; simpl in Hf.
  - injection Hf as ->.
    destruct (step_unreadable md5_Sum w hashes b f e Hc Hd) as [_ Hflow]. fold step in Hflow.
    destruct (step b f) as [[evs0 b'] flow]. simpl in Hflow. rewrite Hflow. reflexivity.
  - destruct (step b f0) as [[evs0 b'] flow].
    destruct flow as [|e0]; [|intros H; discriminate H].
    specialize (IH b' i Hf Hc Hd). fold loop. fold loop in IH.
    destruct (loop b' fs fin) as [[its b''] r]. simpl in *. assumption.
Qed.

Lemma loop_write_failure b fs fin i evs e :
  (loop b fs fin).1.1 !! i = Some evs ->
  uploads evs <> [] ->
  writeFault w (calls b + length (uploads (concat (take i (loop b fs fin).1.1)))) = Some e ->
  (loop b fs fin).2 = Some ("upload file: " +:+ e).
Proof.
  revert b i. induction fs as [|f fs IH]; intros b i.
  - unfold loop; simpl.
    destruct fin; (destruct i; [|intros H; discriminate H]);
      intros [= <-] H; exfalso; apply H; reflexivity.
  - unfold loop; simpl. fold step.
    pose proof (step_events md5_Sum w hashes b f) as Hev. fold step iter in Hev.
    pose proof (step_calls md5_Sum w hashes b f) as Hcalls. fold step iter in Hcalls.
    pose proof (step_bucket md5_Sum w hashes b f) as Hb. fold step iter in Hb.
    destruct i as [|i].
    + assert (Hup : forall evs0, Some (iter f) = Some evs0 -> uploads evs0 <> [] ->
                      writeFault w (calls b + 0) = Some e ->
                      (step b f).2 = Return ("upload file: " +:+ e)).
      { intros evs0 [= <-] Hne Hfault.
        destruct Hb as [(_ & _ & Hnil)|(data & (Hc & Hd & Hh) & _ & _)]; [contradiction|].
        destruct (step_upload md5_Sum w hashes b f data Hc Hd Hh) as [_ Hflow].
        fold step in Hflow. rewrite Hflow. unfold Bucket_WriteAll.
        rewrite Nat.add_0_r in Hfault. rewrite Hfault. reflexivity. }
      destruct (step b f) as [[evs0 b'] flow]. simpl in Hev, Hup. rewrite Hev.
      destruct flow as [|e0].
      * fold loop. destruct (loop b' fs fin) as [[its b''] r]. simpl.
        intros H1 H2 H3. specialize (Hup _ H1 H2 H3). discriminate Hup.
      * simpl. intros H1 H2 H3. specialize (Hup _ H1 H2 H3). congruence.
    + destruct (step b f) as [[evs0 b'] flow]. simpl in Hev, Hcalls.
      destruct flow as [|e0]; [|intros H; discriminate H].
      specialize (IH b' i). fold loop. fold loop in IH.
      destruct (loop b' fs fin) as [[its b''] r]. simpl in *.
      intros H1 H2 H3. apply IH; try assumption.
      change (TarNext :: evs0 ++ concat (take i its))
        with ((TarNext :: evs0) ++ concat (take i its))%list in H3.
      rewrite Hev in H3. unfold uploads in H3, Hcalls |- *.
      rewrite filter_app, length_app in H3.
      rewrite Hcalls, <- H3. f_equal. lia.
Qed.

Lemma loop_next_failure b fs e evs :
  (loop b fs (IterErr e)).1.1 !! length fs = Some evs ->
  (loop b fs (IterErr e)).2 = Some ("get next file in tar: " +:+ e).
Proof.
  revert b. induction fs as [|f fs IH]; intros b; [reflexivity|].
  unfold loop; simpl. fold step.
  destruct (step b f) as [[evs0 b'] flow].
  destruct flow as [|e0].
  - specialize (IH b'). fold loop. fold loop in IH.
    destruct (loop b' fs (IterErr e)) as [[its b''] r]. simpl in *. assumption.
  - simpl. destruct fs; intros H; discriminate H.
Qed.

End Failures.

(** ** Runs *)

Section Runs.

Variable md5_Sum : bytes -> bytes.

(** The iteration of a run that meets the entry [f] compares against
    the index of the bucket as it was when the run started. *)
Lemma Run_iteration m w i f evs :
  archive w !! i = Some f ->
  files (Run md5_Sum m w) !! i = Some evs ->
  evs = iteration md5_Sum w (index_of (objects w)) f.
Proof.
  intros Hf Hi. pose proof (Run_iterates _ _ _ _ _ Hi) as Hr.
  destruct (Run_reaches_archive md5_Sum m w Hr) as (? & ? & _ & _ & _ & E & _).
  rewrite E in Hi. eapply loop_iteration; eassumption.
Qed.

(** Every write of a run is the write of an entry of the archive that
    the loop considers, under the entry's name, of the entry's bytes. *)
Lemma Run_upload m w e :
  e ∈ trace (Run md5_Sum m w) -> is_upload e = true ->
  exists f data,
    f ∈ archive w /\ considered f = true /\ content f = Got data
    /\ index_of (objects w) !! entry_name f <> Some (md5_Sum data)
    /\ e = WriteAll (entry_name f) data (writer_options w (entry_name f)).
Proof.
  intros He Hu. destruct (reaches_archive_dec w) as [Hr|Hr].
  - destruct (Run_reaches_archive md5_Sum m w Hr) as (l1 & l2 & Es & Hs & Et & Ef & _).
    unfold trace in He. rewrite Es, Et, Ef in He.
    apply elem_of_app in He as [He|He].
    { rewrite Forall_forall in Hs. apply Hs in He. congruence. }
    apply elem_of_app in He as [He|He].
    + eapply loop_upload; eassumption.
    + apply list_elem_of_singleton in He as ->. discriminate.
  - apply (Run_stops_early md5_Sum m) in Hr as (_ & _ & Hs & _).
    rewrite Forall_forall in Hs. apply Hs in He. congruence.
Qed.

(** With distinct names in the archive, the writes of a run under the
    name of an entry are those of the iteration that meets it. *)
Lemma Run_uploads_under m w i f evs :
  NoDup (entry_name <$> archive w) ->
  archive w !! i = Some f ->
  files (Run md5_Sum m w) !! i = Some evs ->
  uploads_under (entry_name f) (trace (Run md5_Sum m w))
  = uploads_under (entry_name f) evs.
Proof.
  intros Hnd Hf Hi. pose proof (Run_iterates _ _ _ _ _ Hi) as Hr.
  destruct (Run_reaches_archive md5_Sum m w Hr) as (l1 & l2 & Es & Hs & Et & Ef & _).
  assert (H1 : uploads_under (entry_name f) (l1 ++ l2) = []).
  { apply uploads_under_empty, uploads_empty. assumption. }
  rewrite Ef in Hi.
  rewrite <- (loop_uploads_under _ _ _ _ _ _ _ _ _ Hnd Hf Hi).
  unfold trace. rewrite Es, Et, Ef. unfold uploads_under in *.
  rewrite (filter_app _ (l1 ++ l2)), H1, filter_app. cbn [app].
  rewrite filter_cons, filter_nil.
  destruct (decide _) as [H|_]; [discriminate H|]. rewrite app_nil_r. reflexivity.
Qed.

(** Whatever holds of the stored objects and is kept by storing the
    bytes of an entry the run writes, holds when the run ends. *)
Lemma Run_invariant (Q : gmap string RemoteObject -> Prop) m w :
  Q (objects w) ->
  (forall s f data,
     f ∈ archive w -> written md5_Sum (index_of (objects w)) f data -> Q s ->
     Q (<[entry_name f := {| body := data;
                             exposed_md5 := reportMD5 w (entry_name f) data;
                             written_with := writer_options w (entry_name f) |}]> s)) ->
  Q (remote (Run md5_Sum m w)).
Proof.
  intros H0 Hw. destruct (reaches_archive_dec w) as [Hr|Hr].
  - destruct (Run_reaches_archive md5_Sum m w Hr) as (_ & _ & _ & _ & _ & _ & -> & _).
    apply (loop_invariant md5_Sum w _ (fun b => Q (stored b))); [assumption|].
    intros b f data Hf Hd Hb. unfold Bucket_WriteAll.
    destruct (writeFault w (calls b)); simpl; [assumption|].
    apply Hw; assumption.
  - apply (Run_stops_early md5_Sum m) in Hr as (_ & -> & _). assumption.
Qed.

(** A run that returns nil met every entry of the archive. *)
Lemma Run_success m w :
  outcome (Run md5_Sum m w) = Returned None ->
  files (Run md5_Sum m w)
  = ((iteration md5_Sum w (index_of (objects w)) <$> archive w) ++ [[TarNext]])%list
  /\ Forall (fun f => considered f = true -> exists data, content f = Got data) (archive w).
Proof.
  intros Ho. destruct (reaches_archive_dec w) as [Hr|Hr].
  - destruct (Run_reaches_archive md5_Sum m w Hr) as (_ & _ & _ & _ & _ & Ef & _ & Eo).
    rewrite Eo in Ho. injection Ho as Ho. rewrite Ef.
    apply loop_success in Ho as (E & _ & Hall). split; assumption.
  - apply (Run_stops_early md5_Sum m) in Hr as (_ & _ & _ & Hne). contradiction.
Qed.

End Runs.

(** ** Meeting an entry *)

Section Meeting.

Variable md5_Sum : bytes -> bytes.

Lemma due_written hashes f data :
  due md5_Sum hashes f = Some data <-> written md5_Sum hashes f data.
Proof.
  unfold due, written.
  destruct (considered f); [|split; [discriminate|intros (H & _); discriminate H]].
  destruct (content f) as [d|e]; [|split; [discriminate|intros (_ & H & _); discriminate H]].
  destruct (decide (hashes !! entry_name f = Some (md5_Sum d))) as [E|E].
  - rewrite bool_decide_eq_true_2 by assumption.
    split; [discriminate|]. intros (_ & [= <-] & H). contradiction.
  - rewrite bool_decide_eq_false_2 by assumption. split.
    + intros [= <-]. repeat split. assumption.
    + intros (_ & [= <-] & _). reflexivity.
Qed.

Lemma length_omap_cons {A B} (h : A -> option B) (x : A) (l : list A) :
  length (omap h (x :: l)) = length (option_list (h x)) + length (omap h l).
Proof. simpl. destruct (h x); reflexivity. Qed.

(** While nothing fails, an iteration continues, and the handle has
    made one more call exactly when the entry was due. *)
Lemma step_continues w hashes b f :
  (considered f = true -> exists data, content f = Got data) ->
  (forall data, due md5_Sum hashes f = Some data -> writeFault w (calls b) = None) ->
  (processFile md5_Sum w hashes b f).2 = Continue
  /\ calls (processFile md5_Sum w hashes b f).1.2
     = calls b + length (option_list (due md5_Sum hashes f)).
Proof.
  intros Hread Hfault.
  destruct (considered f) eqn:Hc.
  - destruct (Hread eq_refl) as (data & Hd).
    destruct (decide (hashes !! entry_name f = Some (md5_Sum data))) as [E|E].
    + destruct (step_same md5_Sum w hashes b f data Hc Hd E) as [-> ->].
      split; [reflexivity|]. unfold due. rewrite Hc, Hd.
      rewrite bool_decide_eq_true_2 by assumption. simpl. lia.
    + destruct (step_upload md5_Sum w hashes b f data Hc Hd E) as [-> ->].
      assert (Hdue : due md5_Sum hashes f = Some data).
      { apply due_written. repeat split; assumption. }
      rewrite Hdue. unfold Bucket_WriteAll. rewrite (Hfault data Hdue). simpl.
      split; [reflexivity|lia].
  - destruct (step_passed md5_Sum w hashes b f Hc) as [-> ->].
    split; [reflexivity|]. unfold due. rewrite Hc. simpl. lia.
Qed.

(** While nothing fails over the first [i] entries, the loop makes their
    iterations and goes on with the rest, the handle having made one call
    per due entry. *)
Lemma loop_split w hashes b fs fin i :
  i <= length fs ->
  Forall (fun f => considered f = true -> exists data, content f = Got data) (take i fs) ->
  (forall n, n < length (omap (due md5_Sum hashes) (take i fs)) ->
             writeFault w (calls b + n) = None) ->
  exists b_i,
    calls b_i = calls b + length (omap (due md5_Sum hashes) (take i fs))
    /\ (tarLoop md5_Sum w hashes b fs fin).1.1
       = ((iteration md5_Sum w hashes <$> take i fs)
          ++ (tarLoop md5_Sum w hashes b_i (drop i fs) fin).1.1)%list
    /\ (tarLoop md5_Sum w hashes b fs fin).1.2
       = (tarLoop md5_Sum w hashes b_i (drop i fs) fin).1.2
    /\ (tarLoop md5_Sum w hashes b fs fin).2
       = (tarLoop md5_Sum w hashes b_i (drop i fs) fin).2.
Proof.
  revert b fs. induction i as [|i IH]; intros b fs Hlen Hread Hfault.
  - exists b. rewrite take_0, drop_0. simpl. split; [lia|]. repeat split.
  - destruct fs as [|f fs]; [simpl in Hlen; lia|].
    cbn [take drop] in *. apply Forall_cons in Hread as [Hf Hread].
    pose proof (step_events md5_Sum w hashes b f) as Hev.
    destruct (step_continues w hashes b f Hf) as [Hflow Hcalls].
    { intros data Hdue. rewrite <- (Nat.add_0_r (calls b)). apply Hfault.
      rewrite length_omap_cons, Hdue. simpl. lia. }
    destruct (IH (processFile md5_Sum w hashes b f).1.2 fs) as (b_i & Hb_i & H1 & H2 & H3).
    { simpl in Hlen. lia. }
    { assumption. }
    { intros n Hn. rewrite Hcalls, <- Nat.add_assoc. apply Hfault.
      rewrite length_omap_cons. lia. }
    exists b_i. split.
    { rewrite Hb_i, Hcalls, length_omap_cons. lia. }
    simpl.
    destruct (processFile md5_Sum w hashes b f) as [[evs b1] flow].
    simpl in Hev, Hflow, H1, H2, H3. subst flow.
    destruct (tarLoop md5_Sum w hashes b1 fs fin) as [[its b2] r].
    simpl in *. rewrite Hev, H1. repeat split; assumption.
Qed.

(** The same for a run: while nothing fails before entry [i], the run
    makes the iterations of the first [i] entries and goes on with the
    rest. *)
Lemma Run_split m w i :
  clear_until md5_Sum w i ->
  i <= length (archive w) ->
  exists b_i,
    calls b_i = length (omap (due md5_Sum (index_of (objects w))) (take i (archive w)))
    /\ files (Run md5_Sum m w)
       = ((iteration md5_Sum w (index_of (objects w)) <$> take i (archive w))
          ++ (tarLoop md5_Sum w (index_of (objects w)) b_i (drop i (archive w))
                (archiveEnd w)).1.1)%list
    /\ outcome (Run md5_Sum m w)
       = Returned (tarLoop md5_Sum w (index_of (objects w)) b_i (drop i (archive w))
                     (archiveEnd w)).2
    /\ teardown (Run md5_Sum m w) = [Close].
Proof.
  intros (Hr & Hread & Hfault) Hi.
  destruct (Run_reaches_archive md5_Sum m w Hr) as (_ & _ & _ & _ & Et & Ef & _ & Eo).
  destruct (loop_split w (index_of (objects w)) (opened w) (archive w) (archiveEnd w) i
              Hi Hread) as (b_i & Hb_i & H1 & _ & H3).
  { intros n Hn. apply Hfault. assumption. }
  exists b_i. rewrite Ef, Eo, H1, H3. repeat split; assumption.
Qed.

(** The iteration that meets entry [i] exists while nothing fails before
    it. *)
Lemma Run_meets m w i f :
  clear_until md5_Sum w i ->
  archive w !! i = Some f ->
  files (Run md5_Sum m w) !! i = Some (iteration md5_Sum w (index_of (objects w)) f).
Proof.
  intros Hclear Hf. apply lookup_lt_Some in Hf as Hlt.
  destruct (Run_split m w i Hclear) as (b_i & _ & Ef & _); [lia|].
  rewrite Ef, lookup_app_r by (rewrite length_fmap, length_take; lia).
  rewrite length_fmap, length_take, Nat.min_l, Nat.sub_diag by lia.
  rewrite (drop_S _ _ _ Hf). simpl.
  pose proof (step_events md5_Sum w (index_of (objects w)) b_i f) as Hev.
  destruct (processFile md5_Sum w (index_of (objects w)) b_i f) as [[evs b1] flow].
  simpl in Hev. rewrite <- Hev.
  destruct flow; [|reflexivity].
  destruct (tarLoop md5_Sum w (index_of (objects w)) b1 (drop (S i) (archive w))
              (archiveEnd w)) as [[its b2] r]. reflexivity.
Qed.

End Meeting.

(** * Theorems about [Run] *)

Section Theorems.

Variable md5_Sum : bytes -> bytes.

(** C1. For an entry of the archive that is a regular file, is not in
    the ignore set, whose bytes are read, and whose key is in the remote
    checksum index, the iteration of [Run] that meets it writes the
    entry's bytes under its name exactly when their MD5 is not the
    recorded checksum, and writes nothing when it is. *)
Theorem upload_iff_checksum_differs m w i f data remoteSum evs :
  archive w !! i = Some f ->
  regular f = true ->
  ignored (entry_name f) = false ->
  content f = Got data ->
  index_of (objects w) !! entry_name f = Some remoteSum ->
  files (Run md5_Sum m w) !! i = Some evs ->
  (uploads evs = [WriteAll (entry_name f) data (writer_options w (entry_name f))]
   <-> md5_Sum data <> remoteSum)
  /\ (uploads evs = [] <-> md5_Sum data = remoteSum).
Proof.
  intros Hf Hr Hi Hd Hh Hevs.
  assert (Hc : considered f = true) by (apply considered_spec; split; assumption).
  rewrite (Run_iteration md5_Sum m w i f evs Hf Hevs).
  destruct (decide (md5_Sum data = remoteSum)) as [<-|Hne].
  - rewrite (iteration_same md5_Sum w _ f data) by assumption.
    split; (split; [|congruence || reflexivity]); try reflexivity.
    intros H. discriminate H.
  - rewrite (iteration_differs md5_Sum w _ f data remoteSum) by assumption.
    split; (split; [|congruence || reflexivity]); try reflexivity.
    + intros _. assumption.
    + intros H. discriminate H.
Qed.

(** C2. For an entry of the archive that is a regular file, is not in
    the ignore set, whose bytes are read, and whose key is absent from
    the remote checksum index or recorded there with another checksum,
    the iteration of [Run] that meets it makes exactly one [WriteAll]
    call: under the entry's name, of the bytes read.  When the names of
    the archive are distinct this is the only write of the whole run
    under that key. *)
Theorem absent_or_changed_uploaded_once m w i f data evs :
  archive w !! i = Some f ->
  regular f = true ->
  ignored (entry_name f) = false ->
  content f = Got data ->
  (index_of (objects w) !! entry_name f = None
   \/ exists remoteSum, index_of (objects w) !! entry_name f = Some remoteSum
                        /\ md5_Sum data <> remoteSum) ->
  files (Run md5_Sum m w) !! i = Some evs ->
  uploads evs = [WriteAll (entry_name f) data (writer_options w (entry_name f))]
  /\ (NoDup (entry_name <$> archive w) ->
      uploads_under (entry_name f) (trace (Run md5_Sum m w))
      = [WriteAll (entry_name f) data (writer_options w (entry_name f))]).
Proof.
  intros Hf Hr Hi Hd Hh Hevs.
  assert (Hc : considered f = true) by (apply considered_spec; split; assumption).
  assert (E : evs = [TarNext; ReadAll (entry_name f);
                     Printf ("uploading " +:+ entry_name f +:+ "…");
                     WriteAll (entry_name f) data (writer_options w (entry_name f))]
              \/ evs = [TarNext; ReadAll (entry_name f); Md5Sum data;
                        Printf ("uploading " +:+ entry_name f +:+ "…");
                        WriteAll (entry_name f) data (writer_options w (entry_name f))]).
  { rewrite (Run_iteration md5_Sum m w i f evs Hf Hevs).
    destruct Hh as [Hh|(remoteSum & Hh & Hne)].
    - left. apply iteration_absent; assumption.
    - right. eapply iteration_differs; eassumption. }
  split.
  - destruct E as [->| ->]; reflexivity.
  - intros Hnd. rewrite (Run_uploads_under md5_Sum m w i f evs Hnd Hf Hevs).
    unfold uploads_under.
    destruct E as [->| ->]; rewrite !filter_cons, filter_nil; simpl;
      repeat (destruct (decide _); try congruence).
Qed.

(** C4. The ignore set contains ".gitignore", [Run] never calls
    [WriteAll] under a key of the ignore set, and the iteration that
    meets an entry whose name is in the ignore set does nothing after
    reading the header, whatever the bucket holds. *)
Theorem ignored_never_uploaded m w :
  ".gitignore" ∈ IgnoredFiles
  /\ (forall key data options,
        WriteAll key data options ∈ trace (Run md5_Sum m w) -> key ∉ IgnoredFiles)
  /\ (forall i f evs,
        archive w !! i = Some f ->
        entry_name f ∈ IgnoredFiles ->
        files (Run md5_Sum m w) !! i = Some evs ->
        evs = [TarNext] /\ uploads evs = []).
Proof.
  split; [apply elem_of_singleton; reflexivity|]. split.
  - intros key data options He Hk.
    apply Run_upload in He as (f & d & _ & Hc & _ & _ & E); [|reflexivity].
    injection E as -> _ _. apply considered_spec in Hc as [_ Hi].
    unfold ignored in Hi. apply bool_decide_eq_false in Hi. contradiction.
  - intros i f evs Hf Hk Hevs.
    rewrite (Run_iteration md5_Sum m w i f evs Hf Hevs).
    rewrite iteration_not_considered; [split; reflexivity|].
    unfold considered, ignored. rewrite (bool_decide_eq_true_2 _ Hk).
    apply andb_false_r.
Qed.

(** C5. The iteration of [Run] that meets an entry whose type flag is
    not that of a regular file does nothing after reading the header:
    no [ReadAll], no [md5.Sum], no [WriteAll], whatever the bucket
    holds. *)
Theorem non_regular_untouched m w i f evs :
  archive w !! i = Some f ->
  Typeflag (header f) <> TypeReg ->
  files (Run md5_Sum m w) !! i = Some evs ->
  evs = [TarNext]
  /\ Forall (fun e => is_read e = false /\ is_checksum e = false /\ is_upload e = false) evs.
Proof.
  intros Hf Ht Hevs.
  rewrite (Run_iteration md5_Sum m w i f evs Hf Hevs).
  rewrite iteration_not_considered.
  - split; [reflexivity|]. repeat constructor.
  - unfold considered, regular. rewrite (bool_decide_eq_false_2 _ Ht). reflexivity.
Qed.

(** C6. A stored object that exposes no MD5 leaves no entry under its
    key in the checksum index, so the iteration of [Run] that meets a
    regular, non-ignored entry of that name whose bytes are read writes
    them, whatever they are (the stored bytes included). *)
Theorem object_without_md5_is_uploaded m w key obj :
  objects w !! key = Some obj ->
  exposed_md5 obj = None ->
  index_of (objects w) !! key = None
  /\ (forall i f data evs,
        archive w !! i = Some f ->
        entry_name f = key ->
        regular f = true ->
        ignored key = false ->
        content f = Got data ->
        files (Run md5_Sum m w) !! i = Some evs ->
        uploads evs = [WriteAll key data (writer_options w key)]).
Proof.
  intros Ho Hm.
  assert (Hidx : index_of (objects w) !! key = None).
  { rewrite index_of_lookup, Ho. simpl. assumption. }
  split; [assumption|].
  intros i f data evs Hf <- Hr Hi Hd Hevs.
  rewrite (Run_iteration md5_Sum m w i f evs Hf Hevs).
  rewrite (iteration_absent md5_Sum w _ f data); try assumption; [reflexivity|].
  apply considered_spec. split; assumption.
Qed.

(** C7. Every [WriteAll] call of [Run] passes the options inferred from
    the extension of the key: nil when [mime.TypeByExtension] knows no
    type for it, and the type it returns otherwise; so "style.css" is
    written with the type registered for ".css". *)
Theorem content_type_from_extension m w key data options :
  WriteAll key data options ∈ trace (Run md5_Sum m w) ->
  options = writer_options w key
  /\ (TypeByExtension w (Ext key) = "" -> options = None)
  /\ (TypeByExtension w (Ext key) <> "" ->
      options = Some {| ContentType := TypeByExtension w (Ext key) |})
  /\ (key = "style.css" -> TypeByExtension w ".css" <> "" ->
      options = Some {| ContentType := TypeByExtension w ".css" |}).
Proof.
  intros He.
  apply Run_upload in He as (f & d & _ & _ & _ & _ & E); [|reflexivity].
  injection E as -> _ ->.
  unfold writer_options. repeat split.
  - intros H. rewrite bool_decide_eq_false_2; [reflexivity|]. intros Hn. apply Hn, H.
  - intros H. rewrite bool_decide_eq_true_2 by assumption. reflexivity.
  - intros Hk H. rewrite Hk. change (Ext "style.css") with ".css".
    rewrite bool_decide_eq_true_2 by assumption. reflexivity.
Qed.

(** C10. The ignore test is equality of the whole name with a member
    of the set: only ".gitignore" itself passes it.  The iteration that
    meets ".gitignore" stops after the header; the one that meets a
    regular "docs/.gitignore" reads it and writes it unless the index
    records its checksum, like any other regular file.  While nothing
    fails before them, the run does meet such entries: it passes over
    ".gitignore", and it reads "docs/.gitignore" and writes it when it is
    due. *)
Theorem ignore_is_exact_match :
  (forall name, ignored name = true <-> name = ".gitignore")
  /\ ignored "docs/.gitignore" = false
  /\ (forall m w i f evs,
        archive w !! i = Some f ->
        entry_name f = ".gitignore" ->
        files (Run md5_Sum m w) !! i = Some evs ->
        evs = [TarNext])
  /\ (forall m w i f data evs,
        archive w !! i = Some f ->
        entry_name f = "docs/.gitignore" ->
        regular f = true ->
        content f = Got data ->
        files (Run md5_Sum m w) !! i = Some evs ->
        ReadAll "docs/.gitignore" ∈ evs
        /\ (uploads evs
             = [WriteAll "docs/.gitignore" data (writer_options w "docs/.gitignore")]
            <-> index_of (objects w) !! "docs/.gitignore" <> Some (md5_Sum data)))
  /\ (forall m w i f,
        clear_until md5_Sum w i ->
        archive w !! i = Some f ->
        entry_name f = ".gitignore" ->
        files (Run md5_Sum m w) !! i = Some [TarNext])
  /\ (forall m w i f data,
        clear_until md5_Sum w i ->
        archive w !! i = Some f ->
        entry_name f = "docs/.gitignore" ->
        regular f = true ->
        content f = Got data ->
        exists evs,
          files (Run md5_Sum m w) !! i = Some evs
          /\ ReadAll "docs/.gitignore" ∈ evs
          /\ (uploads evs
               = [WriteAll "docs/.gitignore" data (writer_options w "docs/.gitignore")]
              <-> index_of (objects w) !! "docs/.gitignore" <> Some (md5_Sum data))
          /\ (index_of (objects w) !! "docs/.gitignore" <> Some (md5_Sum data) ->
              WriteAll "docs/.gitignore" data (writer_options w "docs/.gitignore")
              ∈ trace (Run md5_Sum m w))).
Proof.
  assert (Hig : forall name, ignored name = true <-> name = ".gitignore").
  { intros name. unfold ignored, IgnoredFiles.
    rewrite bool_decide_eq_true, elem_of_singleton. reflexivity. }
  assert (Hdocs : ignored "docs/.gitignore" = false).
  { destruct (ignored "docs/.gitignore") eqn:E; [|reflexivity].
    apply Hig in E. discriminate E. }
  assert (Hroot : forall m w i f evs,
            archive w !! i = Some f ->
            entry_name f = ".gitignore" ->
            files (Run md5_Sum m w) !! i = Some evs ->
            evs = [TarNext]).
  { intros m w i f evs Hf Hn Hevs.
    rewrite (Run_iteration md5_Sum m w i f evs Hf Hevs).
    apply iteration_not_considered. unfold considered.
    rewrite (proj2 (Hig _) Hn). apply andb_false_r. }
  assert (Hsub : forall m w i f data evs,
            archive w !! i = Some f ->
            entry_name f = "docs/.gitignore" ->
            regular f = true ->
            content f = Got data ->
            files (Run md5_Sum m w) !! i = Some evs ->
            ReadAll "docs/.gitignore" ∈ evs
            /\ (uploads evs
                 = [WriteAll "docs/.gitignore" data (writer_options w "docs/.gitignore")]
                <-> index_of (objects w) !! "docs/.gitignore" <> Some (md5_Sum data)));
    [|split; [assumption|]; split; [assumption|]; split; [assumption|];
      split; [assumption|]; split].
  3:{ intros m w i f data Hclear Hf Hn Hr Hd.
      pose proof (Run_meets md5_Sum m w i f Hclear Hf) as Hevs.
      eexists. split; [exact Hevs|].
      destruct (Hsub m w i f data _ Hf Hn Hr Hd Hevs) as [Hread Hup].
      split; [assumption|]. split; [assumption|].
      intros Hne. apply Hup in Hne.
      apply (in_files_in_trace _ (iteration md5_Sum w (index_of (objects w)) f)).
      - apply list_elem_of_lookup. exists i. assumption.
      - assert (H : WriteAll "docs/.gitignore" data (writer_options w "docs/.gitignore")
                    ∈ uploads (iteration md5_Sum w (index_of (objects w)) f)).
        { rewrite Hne. apply list_elem_of_here. }
        apply list_elem_of_filter in H as [_ H]. assumption. }
  2:{ intros m w i f Hclear Hf Hn.
      pose proof (Run_meets md5_Sum m w i f Hclear Hf) as Hevs.
      rewrite Hevs. f_equal. eapply Hroot; eassumption. }
  - intros m w i f data evs Hf Hn Hr Hd Hevs.
    assert (Hc : considered f = true).
    { apply considered_spec. split; [assumption|]. rewrite Hn. assumption. }
    rewrite (Run_iteration md5_Sum m w i f evs Hf Hevs).
    destruct (iteration_shape md5_Sum w (index_of (objects w)) f)
      as [[Hc' _]|[[_ (e & Hd' & _)]|[[_ (d & Hd' & Hh & E)]|[_ (d & Hd' & Hh & E & _)]]]];
      try congruence.
    + assert (d = data) as -> by congruence. rewrite E, <- Hn. split.
      * apply list_elem_of_further, list_elem_of_here.
      * split; [intros H; discriminate H|]. intros H. contradiction.
    + assert (d = data) as -> by congruence. rewrite E, <- Hn. split.
      * pose proof (iteration_absent md5_Sum w (index_of (objects w)) f data Hc Hd) as Ha.
        destruct (index_of (objects w) !! entry_name f) as [r|] eqn:Hr'.
        -- rewrite (iteration_differs md5_Sum w _ f data r) by congruence.
           apply list_elem_of_further, list_elem_of_here.
        -- rewrite Ha by reflexivity. apply list_elem_of_further, list_elem_of_here.
      * split; [intros _; assumption|reflexivity].
Qed.

(** C9. [Run] deletes nothing: every key stored before the run is
    stored after it, every object whose key is not the name of an entry
    of the archive is left as it was, and every [WriteAll] call is under
    the name of an entry of the archive, of that entry's bytes. *)
Theorem Run_never_deletes m w :
  (forall key, is_Some (objects w !! key) -> is_Some (remote (Run md5_Sum m w) !! key))
  /\ (forall key,
        key ∉ entry_name <$> archive w ->
        remote (Run md5_Sum m w) !! key = objects w !! key)
  /\ (forall key data options,
        WriteAll key data options ∈ trace (Run md5_Sum m w) ->
        exists f, f ∈ archive w /\ entry_name f = key /\ regular f = true
                  /\ content f = Got data).
Proof.
  split; [|split].
  - intros key Hk.
    apply (Run_invariant md5_Sum (fun s => is_Some (s !! key))); [assumption|].
    intros s f data _ _ Hs. apply lookup_insert_is_Some'. right. assumption.
  - intros key Hk.
    apply (Run_invariant md5_Sum (fun s => s !! key = objects w !! key)); [reflexivity|].
    intros s f data Hf _ Hs. rewrite lookup_insert_ne; [assumption|].
    intros <-. apply Hk. apply list_elem_of_fmap. exists f. split; [reflexivity|assumption].
  - intros key data options He.
    apply Run_upload in He as (f & d & Hf & Hc & Hd & _ & E); [|reflexivity].
    injection E as -> -> _. exists f.
    apply considered_spec in Hc as [Hr _]. repeat split; assumption.
Qed.

(** C3. After a run that returns nil on an archive that gives every
    name one content, if the bucket exposes, for every key the run wrote,
    the MD5 of the bytes written, then a second run on the same archive
    against the bucket as the first left it makes no [WriteAll] call and
    leaves the bucket as it is. *)
Theorem second_run_uploads_nothing m w1 w2 :
  outcome (Run md5_Sum m w1) = Returned None ->
  consistent (archive w1) ->
  (forall key data options,
     WriteAll key data options ∈ trace (Run md5_Sum m w1) ->
     exists obj, remote (Run md5_Sum m w1) !! key = Some obj
                 /\ exposed_md5 obj = Some (md5_Sum data)) ->
  archive w2 = archive w1 ->
  objects w2 = remote (Run md5_Sum m w1) ->
  uploads (trace (Run md5_Sum m w2)) = []
  /\ remote (Run md5_Sum m w2) = objects w2.
Proof.
  intros Hok Hnd Hmd5 Harch Hobjs.
  apply Run_success in Hok as (Efiles & _).
  assert (K : forall f data,
             f ∈ archive w1 -> considered f = true -> content f = Got data ->
             index_of (objects w2) !! entry_name f = Some (md5_Sum data)).
  { intros f data Hf Hc Hd. rewrite Hobjs.
    destruct (decide (index_of (objects w1) !! entry_name f = Some (md5_Sum data)))
      as [Hsame|Hdiff].
    - rewrite index_of_lookup. rewrite index_of_lookup in Hsame.
      rewrite <- Hsame. f_equal.
      apply (Run_invariant md5_Sum
               (fun s => s !! entry_name f = objects w1 !! entry_name f));
        [reflexivity|].
      intros s f' data' Hf' (Hc' & Hd' & Hh') Hs.
      rewrite lookup_insert_ne; [assumption|].
      intros E. assert (data' = data) as ->.
      { pose proof (Hnd f' f Hf' Hf E). congruence. }
      apply Hh'. rewrite index_of_lookup, E. assumption.
    - assert (Hin : WriteAll (entry_name f) data (writer_options w1 (entry_name f))
                    ∈ trace (Run md5_Sum m w1)).
      { apply (in_files_in_trace _ (iteration md5_Sum w1 (index_of (objects w1)) f)).
        - rewrite Efiles. apply elem_of_app. left.
          apply list_elem_of_fmap. exists f. split; [reflexivity|assumption].
        - destruct (iteration_shape md5_Sum w1 (index_of (objects w1)) f)
            as [[? _]|[[_ (? & ? & _)]|[[_ (d & Hd' & Hh & _)]|[_ (d & Hd' & _ & E & _)]]]];
            try congruence.
          assert (d = data) as -> by congruence.
          assert (H : WriteAll (entry_name f) data (writer_options w1 (entry_name f))
                      ∈ uploads (iteration md5_Sum w1 (index_of (objects w1)) f)).
          { rewrite E. apply list_elem_of_here. }
          apply list_elem_of_filter in H as [_ H]. assumption. }
      apply Hmd5 in Hin as (obj & Hobj & Hexp).
      rewrite index_of_lookup, Hobj. simpl. assumption. }
  split.
  - apply uploads_empty, Forall_forall. intros e He.
    destruct (is_upload e) eqn:Hu; [|reflexivity].
    apply Run_upload in He as (f & data & Hf & Hc & Hd & Hh & _); [|assumption].
    rewrite Harch in Hf. exfalso. apply Hh. apply K; assumption.
  - apply (Run_invariant md5_Sum (fun s => s = objects w2)); [reflexivity|].
    intros s f data Hf (Hc & Hd & Hh) _.
    rewrite Harch in Hf. exfalso. apply Hh. apply K; assumption.
Qed.

(** C8. When the listing iterator returns an error other than [io.EOF],
    [Run] ends in [log.Fatal]: the process exits with status 1, no error
    is returned, and the deferred [bucket.Close] does not run; this is
    the only way [Run] exits.  Every other failure (opening the bucket,
    starting git, reading the next header, reading an entry, writing an
    object) is returned as an error annotated with its stage, and
    [bucket.Close] runs whenever the bucket was opened.  The failures of
    the archive loop are stated twice: for an iteration the run makes,
    and from the world alone, where nothing fails before the entry; there
    the run also meets no later entry. *)
Theorem listing_failure_exits_others_return m w :
  let x := Run md5_Sum m w in
  (forall n e,
     openErr w = None -> listFault w = Some (n, e) ->
     outcome x = Exited 1 /\ last (trace x) = Some (Fatal e)
     /\ (Close ∉ trace x) /\ remote x = objects w)
  /\ (forall status,
        outcome x = Exited status ->
        openErr w = None /\ exists n e, listFault w = Some (n, e))
  /\ (forall e,
        openErr w = Some e ->
        outcome x = Returned (Some ("open bucket: " +:+ e)))
  /\ (forall e,
        openErr w = None -> listFault w = None -> pipeErr w = Some e ->
        outcome x = Returned (Some ("get site tar: " +:+ "get git stdout: " +:+ e))
        /\ teardown x = [Close])
  /\ (forall e,
        openErr w = None -> listFault w = None -> pipeErr w = None -> startErr w = Some e ->
        outcome x = Returned (Some ("get site tar: " +:+ "start git: " +:+ e))
        /\ teardown x = [Close])
  /\ (forall e evs,
        archiveEnd w = IterErr e ->
        files x !! length (archive w) = Some evs ->
        outcome x = Returned (Some ("get next file in tar: " +:+ e))
        /\ teardown x = [Close])
  /\ (forall i f e evs,
        archive w !! i = Some f ->
        regular f = true -> ignored (entry_name f) = false ->
        content f = Failed e ->
        files x !! i = Some evs ->
        outcome x
        = Returned (Some ("read file " +:+ dquote +:+ entry_name f +:+ dquote +:+ ": " +:+ e))
        /\ teardown x = [Close])
  /\ (forall i evs e,
        files x !! i = Some evs ->
        uploads evs <> [] ->
        writeFault w (length (uploads (concat (take i (files x))))) = Some e ->
        outcome x = Returned (Some ("upload file: " +:+ e))
        /\ teardown x = [Close])
  /\ (forall e,
        clear_until md5_Sum w (length (archive w)) ->
        archiveEnd w = IterErr e ->
        outcome x = Returned (Some ("get next file in tar: " +:+ e))
        /\ teardown x = [Close]
        /\ length (files x) = S (length (archive w)))
  /\ (forall i f e,
        clear_until md5_Sum w i ->
        archive w !! i = Some f ->
        regular f = true -> ignored (entry_name f) = false ->
        content f = Failed e ->
        outcome x
        = Returned (Some ("read file " +:+ dquote +:+ entry_name f +:+ dquote +:+ ": " +:+ e))
        /\ teardown x = [Close]
        /\ length (files x) = S i)
  /\ (forall i f data e,
        clear_until md5_Sum w i ->
        archive w !! i = Some f ->
        regular f = true -> ignored (entry_name f) = false ->
        content f = Got data ->
        index_of (objects w) !! entry_name f <> Some (md5_Sum data) ->
        writeFault w (length (omap (due md5_Sum (index_of (objects w)))
                                   (take i (archive w)))) = Some e ->
        outcome x = Returned (Some ("upload file: " +:+ e))
        /\ teardown x = [Close]
        /\ length (files x) = S i).
Proof.
  intros x. subst x. repeat apply conj.
  - intros n e Ho Hl. unfold trace, Run, blob_OpenBucket, Bucket_List.
    rewrite Ho, Hl, listLoop_IterErr. simpl. rewrite app_nil_r.
    split; [reflexivity|]. split; [|split; [|reflexivity]].
    + rewrite !app_comm_cons. apply last_snoc.
    + intros H. repeat (apply elem_of_cons in H as [H|H]; [discriminate H|]).
      apply elem_of_app in H as [H|H].
      * apply elem_of_replicate in H as [H _]. discriminate H.
      * apply list_elem_of_singleton in H. discriminate H.
  - intros status. unfold Run, blob_OpenBucket, Bucket_List.
    destruct (openErr w) as [e|]; [intros H; discriminate H|].
    destruct (listFault w) as [[n e]|].
    + intros _. split; [reflexivity|]. exists n, e. reflexivity.
    + rewrite listLoop_EOF. destruct (getSiteTar m w) as [started [[fs tfin]|e]].
      * destruct (tarLoop _ _ _ _ _ _) as [[its b'] err]. intros H. discriminate H.
      * intros H. discriminate H.
  - intros e Ho. unfold Run, blob_OpenBucket. rewrite Ho. reflexivity.
  - intros e Ho Hl Hp. unfold Run, blob_OpenBucket, Bucket_List, getSiteTar.
    rewrite Ho, Hl, Hp, listLoop_EOF. split; reflexivity.
  - intros e Ho Hl Hp Hs. unfold Run, blob_OpenBucket, Bucket_List, getSiteTar.
    rewrite Ho, Hl, Hp, Hs, listLoop_EOF. split; reflexivity.
  - intros e evs Hfin Hevs. pose proof (Run_iterates _ _ _ _ _ Hevs) as Hr.
    destruct (Run_reaches_archive md5_Sum m w Hr) as (_ & _ & _ & _ & Et & Ef & _ & Eo).
    rewrite Eo, Et. rewrite Ef, Hfin in Hevs. rewrite Hfin.
    rewrite (loop_next_failure _ _ _ _ _ _ _ Hevs). split; reflexivity.
  - intros i f e evs Hf Hreg Hig Hd Hevs. pose proof (Run_iterates _ _ _ _ _ Hevs) as Hr.
    destruct (Run_reaches_archive md5_Sum m w Hr) as (_ & _ & _ & _ & Et & Ef & _ & Eo).
    rewrite Eo, Et. rewrite Ef in Hevs.
    assert (Hc : considered f = true) by (apply considered_spec; split; assumption).
    rewrite (loop_read_failure _ _ _ _ _ _ _ _ _ _ Hf Hc Hd Hevs). split; reflexivity.
  - intros i evs e Hevs Hup Hfault. pose proof (Run_iterates _ _ _ _ _ Hevs) as Hr.
    destruct (Run_reaches_archive md5_Sum m w Hr) as (_ & _ & _ & _ & Et & Ef & _ & Eo).
    rewrite Eo, Et. rewrite Ef in Hevs, Hfault.
    rewrite (loop_write_failure _ _ _ _ _ _ _ _ _ Hevs Hup Hfault). split; reflexivity.
  - intros e Hclear Hfin.
    destruct (Run_split md5_Sum m w _ Hclear (le_n _)) as (b_i & _ & Ef & Eo & Et).
    rewrite Eo, Et, Ef, drop_all, Hfin, take_ge by lia. simpl.
    split; [reflexivity|]. split; [reflexivity|].
    rewrite length_app, length_fmap. simpl. lia.
  - intros i f e Hclear Hf Hreg Hig Hd.
    apply lookup_lt_Some in Hf as Hlt.
    destruct (Run_split md5_Sum m w i Hclear) as (b_i & _ & Ef & Eo & Et); [lia|].
    assert (Hc : considered f = true) by (apply considered_spec; split; assumption).
    rewrite Eo, Et, Ef, (drop_S _ _ _ Hf). simpl.
    destruct (step_unreadable md5_Sum w (index_of (objects w)) b_i f e Hc Hd) as [_ Hflow].
    destruct (processFile md5_Sum w (index_of (objects w)) b_i f) as [[evs b1] flow].
    simpl in Hflow. subst flow. simpl.
    split; [reflexivity|]. split; [reflexivity|].
    rewrite length_app, length_fmap, length_take. simpl. lia.
  - intros i f data e Hclear Hf Hreg Hig Hd Hh Hfault.
    apply lookup_lt_Some in Hf as Hlt.
    destruct (Run_split md5_Sum m w i Hclear) as (b_i & Hcalls & Ef & Eo & Et); [lia|].
    assert (Hc : considered f = true) by (apply considered_spec; split; assumption).
    rewrite Eo, Et, Ef, (drop_S _ _ _ Hf). simpl.
    destruct (step_upload md5_Sum w (index_of (objects w)) b_i f data Hc Hd Hh)
      as [_ Hflow].
    unfold Bucket_WriteAll in Hflow. rewrite Hcalls, Hfault in Hflow.
    destruct (processFile md5_Sum w (index_of (objects w)) b_i f) as [[evs b1] flow].
    simpl in Hflow. subst flow. simpl.
    split; [reflexivity|]. split; [reflexivity|].
    rewrite length_app, length_fmap, length_take. simpl. lia.
Qed.

End Theorems.

(** ** The theorems on concrete runs *)

Lemma upload_iff_checksum_differs_witness :
  let w := world {[ "index.html" := object "old" ]}
                 [file "index.html" "new content"; file "readme.md" "hi"] in
  let f := file "index.html" "new content" in
  let data := bytes_of "new content" in
  let remoteSum := md5.Sum (bytes_of "old") in
  let evs := [TarNext; ReadAll "index.html"; Md5Sum data;
              Printf "uploading index.html…";
              WriteAll "index.html" data (Some {| ContentType := "text/html; charset=utf-8" |})] in
  (uploads evs = [WriteAll (entry_name f) data (writer_options w (entry_name f))]
   <-> md5.Sum data <> remoteSum)
  /\ (uploads evs = [] <-> md5.Sum data = remoteSum).
Proof.
  intros w f data remoteSum evs.
  apply (upload_iff_checksum_differs md5.Sum site w 0 f data remoteSum evs);
    vm_compute; reflexivity.
Defined.

Lemma absent_or_changed_uploaded_once_witness :
  let w := world {[ "index.html" := object "old" ]}
                 [file "index.html" "new content"; file "readme.md" "hi"] in
  let f := file "readme.md" "hi" in
  let data := bytes_of "hi" in
  let evs := [TarNext; ReadAll "readme.md"; Printf "uploading readme.md…";
              WriteAll "readme.md" data None] in
  uploads evs = [WriteAll (entry_name f) data (writer_options w (entry_name f))]
  /\ (NoDup (entry_name <$> archive w) ->
      uploads_under (entry_name f) (trace (Run md5.Sum site w))
      = [WriteAll (entry_name f) data (writer_options w (entry_name f))]).
Proof.
  intros w f data evs.
  apply (absent_or_changed_uploaded_once md5.Sum site w 1 f data evs);
    try (vm_compute; reflexivity).
  left. vm_compute. reflexivity.
Defined.

Lemma non_regular_untouched_witness :
  let w := world ∅ [directory "docs/"; file "docs/index.html" "<p>"] in
  let evs := [TarNext] in
  evs = [TarNext]
  /\ Forall (fun e => is_read e = false /\ is_checksum e = false /\ is_upload e = false) evs.
Proof.
  intros w evs.
  apply (non_regular_untouched md5.Sum site w 0 (directory "docs/") evs).
  - vm_compute. reflexivity.
  - intros H. discriminate H.
  - vm_compute. reflexivity.
Defined.

Lemma object_without_md5_is_uploaded_witness :
  let w := world {[ "a.bin" := opaque_object "same" ]} [file "a.bin" "same"] in
  index_of (objects w) !! "a.bin" = None
  /\ uploads [TarNext; ReadAll "a.bin"; Printf "uploading a.bin…";
              WriteAll "a.bin" (bytes_of "same") None]
     = [WriteAll "a.bin" (bytes_of "same") (writer_options w "a.bin")].
Proof.
  intros w.
  destruct (object_without_md5_is_uploaded md5.Sum site w "a.bin" (opaque_object "same"))
    as [Hidx Hup]; [vm_compute; reflexivity | reflexivity |].
  split; [exact Hidx|].
  apply (Hup 0 (file "a.bin" "same") (bytes_of "same")); vm_compute; reflexivity.
Defined.

Lemma content_type_from_extension_witness :
  let w := world ∅ [file "style.css" "body{}"; file "notes.xyz" "n"] in
  let options := Some {| ContentType := "text/css; charset=utf-8" |} in
  options = writer_options w "style.css"
  /\ (TypeByExtension w (Ext "style.css") = "" -> options = None)
  /\ (TypeByExtension w (Ext "style.css") <> "" ->
      options = Some {| ContentType := TypeByExtension w (Ext "style.css") |})
  /\ ("style.css" = "style.css" -> TypeByExtension w ".css" <> "" ->
      options = Some {| ContentType := TypeByExtension w ".css" |}).
Proof.
  intros w options.
  apply (content_type_from_extension md5.Sum site w "style.css" (bytes_of "body{}") options).
  vm_compute. do 9 apply list_elem_of_further. apply list_elem_of_here.
Defined.

Lemma second_run_uploads_nothing_witness :
  let w1 := world {[ "index.html" := object "old" ]}
                  [file "index.html" "new content"; file "readme.md" "hi"] in
  let w2 := after w1 (Run md5.Sum site w1) in
  uploads (trace (Run md5.Sum site w2)) = []
  /\ remote (Run md5.Sum site w2) = objects w2.
Proof.
  intros w1 w2.
  apply (second_run_uploads_nothing md5.Sum site w1 w2).
  - vm_compute. reflexivity.
  - intros f f' Hf Hf' E. unfold w1, world, archive in Hf, Hf'.
    apply elem_of_cons in Hf as [->|Hf]; [|apply list_elem_of_singleton in Hf as ->];
      (apply elem_of_cons in Hf' as [->|Hf']; [|apply list_elem_of_singleton in Hf' as ->]);
      first [reflexivity | discriminate E].
  - intros key data options H. vm_compute in H.
    repeat (apply elem_of_cons in H as [H|H];
            [first [ discriminate H
                   | injection H as Hk Hd Ho;
                     exists (Build_RemoteObject data (Some (md5.Sum data)) options);
                     subst key data options; split; vm_compute; reflexivity ]|]).
    apply elem_of_nil in H. destruct H.
  - reflexivity.
  - reflexivity.
Defined.

Lemma listing_failure_exits_others_return_witness :
  let broken := archive_breaks (world ∅ [file "a.txt" "a"]) "unexpected EOF" in
  let unread := world ∅ [file "a.txt" "a"; unreadable "b.txt" "short read";
                         file "c.txt" "c"] in
  let denied := write_breaks (world ∅ [file "a.txt" "a"; file "b.txt" "b";
                                       file "c.txt" "c"]) 1 "AccessDenied" in
  (outcome (Run md5.Sum site broken)
   = Returned (Some ("get next file in tar: " +:+ "unexpected EOF"))
   /\ teardown (Run md5.Sum site broken) = [Close]
   /\ length (files (Run md5.Sum site broken)) = 2)
  /\ (outcome (Run md5.Sum site unread)
      = Returned (Some ("read file " +:+ dquote +:+ "b.txt" +:+ dquote +:+ ": "
                        +:+ "short read"))
      /\ teardown (Run md5.Sum site unread) = [Close]
      /\ length (files (Run md5.Sum site unread)) = 2)
  /\ (outcome (Run md5.Sum site denied) = Returned (Some ("upload file: " +:+ "AccessDenied"))
      /\ teardown (Run md5.Sum site denied) = [Close]
      /\ length (files (Run md5.Sum site denied)) = 2).
Proof.
  intros broken unread denied.
  split; [|split].
  - pose proof (listing_failure_exits_others_return md5.Sum site broken) as H.
    cbv zeta in H. destruct H as (_ & _ & _ & _ & _ & _ & _ & _ & H & _ & _).
    apply (H "unexpected EOF"); [|reflexivity].
    split; [repeat split; reflexivity|]. split.
    + repeat constructor. intros _. eexists. reflexivity.
    + intros n _. reflexivity.
  - pose proof (listing_failure_exits_others_return md5.Sum site unread) as H.
    cbv zeta in H. destruct H as (_ & _ & _ & _ & _ & _ & _ & _ & _ & H & _).
    apply (H 1 (unreadable "b.txt" "short read") "short read"); try reflexivity.
    split; [repeat split; reflexivity|]. split.
    + repeat constructor. intros _. eexists. reflexivity.
    + intros n _. reflexivity.
  - pose proof (listing_failure_exits_others_return md5.Sum site denied) as H.
    cbv zeta in H. destruct H as (_ & _ & _ & _ & _ & _ & _ & _ & _ & _ & H).
    apply (H 1 (file "b.txt" "b") (bytes_of "b") "AccessDenied"); try reflexivity.
    + split; [repeat split; reflexivity|]. split.
      * repeat constructor. intros _. eexists. reflexivity.
      * intros n Hn. vm_compute in Hn. destruct n; [reflexivity|lia].
    + vm_compute. discriminate.
Defined.

Lemma ignore_is_exact_match_witness :
  let w := world {[ ".gitignore" := object "old" ]}
                 [file ".gitignore" "*.o"; directory "docs/";
                  file "docs/.gitignore" "*.tmp"] in
  let data := bytes_of "*.tmp" in
  files (Run md5.Sum site w) !! 0 = Some [TarNext]
  /\ exists evs,
       files (Run md5.Sum site w) !! 2 = Some evs
       /\ ReadAll "docs/.gitignore" ∈ evs
       /\ (uploads evs
            = [WriteAll "docs/.gitignore" data (writer_options w "docs/.gitignore")]
           <-> index_of (objects w) !! "docs/.gitignore" <> Some (md5.Sum data))
       /\ (index_of (objects w) !! "docs/.gitignore" <> Some (md5.Sum data) ->
           WriteAll "docs/.gitignore" data (writer_options w "docs/.gitignore")
           ∈ trace (Run md5.Sum site w)).
Proof.
  intros w data.
  destruct (ignore_is_exact_match md5.Sum) as (_ & _ & _ & _ & Hroot & Hsub).
  assert (Hclear : forall i, clear_until md5.Sum w i).
  { intros i. split; [repeat split; reflexivity|]. split.
    - eapply Forall_impl; [|intros f Hf _; exact Hf].
      apply Forall_forall. intros f Hf. apply subseteq_take in Hf.
      unfold w, world, archive in Hf.
      repeat (apply elem_of_cons in Hf as [->|Hf]; [eexists; reflexivity|]).
      apply elem_of_nil in Hf. destruct Hf.
    - intros n _. reflexivity. }
  split.
  - apply (Hroot site w 0 (file ".gitignore" "*.o") (Hclear 0)); reflexivity.
  - apply (Hsub site w 2 (file "docs/.gitignore" "*.tmp") data (Hclear 2)); reflexivity.
Defined.

(** The built-in table is looked up lower-cased when the extension as it
    is has no type. *)
Example builtin_types_ignore_case :
  builtin_TypeByExtension ".css" = "text/css; charset=utf-8"
  /\ builtin_TypeByExtension ".CSS" = "text/css; charset=utf-8"
  /\ builtin_TypeByExtension ".Html" = "text/html; charset=utf-8"
  /\ builtin_TypeByExtension ".xyz" = "".
Proof. repeat split; reflexivity. Qed.

(** ** Further runs *)

(** The listing breaks at once: the process exits after [log.Fatal], and
    neither git nor [bucket.Close] is called. *)
Example listing_breaks_run :
  let w := listing_breaks (world {[ "a.txt" := object "same" ]} [file "a.txt" "new"])
                          0 "RequestTimeout" in
  let x := Run md5.Sum site w in
  outcome x = Exited 1
  /\ trace x = [Setenv "AWS_REGION" "us-east-1"; Setenv "AWS_PROFILE" "example.com";
                OpenBucket "s3://example.com"; ListNext; Fatal "RequestTimeout"].
Proof. vm_compute. split; reflexivity. Qed.

(** The first write fails: the error comes back annotated, the second
    file is not met, and the bucket is closed. *)
Example write_breaks_run :
  let w := write_breaks (world ∅ [file "a.txt" "a"; file "b.txt" "b"]) 0 "AccessDenied" in
  let x := Run md5.Sum site w in
  outcome x = Returned (Some "upload file: AccessDenied")
  /\ length (files x) = 1
  /\ last (trace x) = Some Close
  /\ remote x = ∅.
Proof. vm_compute. repeat split; reflexivity. Qed.

Example unreadable_run :
  let w := world ∅ [unreadable "a.txt" "unexpected EOF"; file "b.txt" "b"] in
  let x := Run md5.Sum site w in
  outcome x
  = Returned (Some ("read file " +:+ dquote +:+ "a.txt" +:+ dquote +:+ ": unexpected EOF"))
  /\ uploads (trace x) = []
  /\ last (trace x) = Some Close.
Proof. vm_compute. repeat split; reflexivity. Qed.

(** ".gitignore" at the root is passed over whatever the bucket holds;
    "docs/.gitignore" is a file like any other. *)
Example gitignore_run :
  let fs := [file ".gitignore" "*.o"; directory "docs/"; file "docs/.gitignore" "*.tmp"] in
  let expected := [WriteAll "docs/.gitignore" (bytes_of "*.tmp") None] in
  uploads (trace (Run md5.Sum site (world ∅ fs))) = expected
  /\ uploads (trace (Run md5.Sum site (world {[ ".gitignore" := object "*.o" ]} fs))) = expected
  /\ uploads (trace (Run md5.Sum site (world {[ ".gitignore" := object "old" ]} fs))) = expected.
Proof. vm_compute. repeat split; reflexivity. Qed.

(** Why the second run needs an archive that gives every name one
    content: with two entries of one name, the bucket ends up holding the
    later one, and each run writes the entry the bucket does not hold. *)
Example two_contents_for_one_name :
  let w1 := world {[ "a" := object "x" ]} [file "a" "x"; file "a" "y"] in
  let x1 := Run md5.Sum site w1 in
  let x2 := Run md5.Sum site (after w1 x1) in
  outcome x1 = Returned None
  /\ uploads (trace x1) = [WriteAll "a" (bytes_of "y") None]
  /\ (remote x1 !! "a") ≫= exposed_md5 = Some (md5.Sum (bytes_of "y"))
  /\ uploads (trace x2) = [WriteAll "a" (bytes_of "x") None].
Proof. vm_compute. repeat split; reflexivity. Qed.

(** The options of [New] are applied in order. *)
Example site_configuration :
  site = {| gitPath := "/usr/bin/git"; siteSourcePath := "/srv/site";
            awsProfile := "example.com"; awsRegion := "us-east-1";
            bucketURL := "s3://example.com" |}.
Proof. reflexivity. Qed.

Example Ext_examples :
  Ext "style.css" = ".css" /\ Ext "a.b/readme" = "" /\ Ext "docs/.gitignore" = ".gitignore"
  /\ Ext "archive.tar.gz" = ".gz" /\ Ext "Makefile" = "".
Proof. repeat split; reflexivity. Qed.

(** * Further properties *)

(** ** Configuration *)

Lemma chosen_snoc pick ss s :
  chosen pick (ss ++ [s])
  = match pick s with Some a => a | None => chosen pick ss end.
Proof.
  unfold chosen. rewrite omap_app. simpl. destruct (pick s) as [a|]; simpl.
  - rewrite last_snoc. reflexivity.
  - rewrite app_nil_r. reflexivity.
Qed.

Lemma New_fields (ss : list Setting) :
  New (option_of <$> ss)
  = {| gitPath := "/usr/bin/git";
       siteSourcePath := chosen root_of ss;
       awsProfile := chosen profile_of ss;
       awsRegion := chosen region_of ss;
       bucketURL := chosen url_of ss |}.
Proof.
  induction ss as [|s ss IH] using rev_ind; [reflexivity|].
  unfold New in *. rewrite fmap_app, foldl_app, IH. simpl.
  rewrite !chosen_snoc. destruct s; reflexivity.
Qed.

(** X1. Whatever options are given, [New] leaves the git path at
    "/usr/bin/git" and sets every other field to the argument of the last
    option of its kind, the empty string when there is none. *)
Theorem New_last_option_wins (ss : list Setting) :
  New (option_of <$> ss)
  = {| gitPath := "/usr/bin/git";
       siteSourcePath := chosen root_of ss;
       awsProfile := chosen profile_of ss;
       awsRegion := chosen region_of ss;
       bucketURL := chosen url_of ss |}.
Proof. apply New_fields. Qed.

(** ** The listing loop *)

Lemma remembered_snoc k objs obj :
  remembered k (objs ++ [obj])
  = match (if bool_decide (Key obj = k) then MD5 obj else None) with
    | Some sum => Some sum
    | None => remembered k objs
    end.
Proof.
  unfold remembered. rewrite omap_app. simpl.
  destruct (if bool_decide (Key obj = k) then MD5 obj else None) as [sum|]; simpl.
  - apply last_snoc.
  - rewrite app_nil_r. reflexivity.
Qed.

Lemma foldl_remember_last objs hashes k :
  foldl remember hashes objs !! k
  = match remembered k objs with
    | Some sum => Some sum
    | None => hashes !! k
    end.
Proof.
  induction objs as [|obj objs IH] using rev_ind; [reflexivity|].
  rewrite foldl_app, remembered_snoc. simpl. unfold remember at 1.
  destruct (MD5 obj) as [sum|] eqn:Hm.
  - destruct (decide (Key obj = k)) as [->|Hne].
    + rewrite lookup_insert_eq, bool_decide_eq_true_2 by reflexivity. reflexivity.
    + rewrite lookup_insert_ne, bool_decide_eq_false_2 by assumption. apply IH.
  - destruct (bool_decide (Key obj = k)); apply IH.
Qed.

(** X2. Over any listing that ends in [io.EOF] the loop calls [Next]
    once per object and once more, and the index it builds holds under
    each key the checksum of the last listed object of that key that
    carries one; an object without MD5 neither adds nor erases an entry.
    Over a listing that breaks, it ends in [log.Fatal] of the error and
    yields no index. *)
Theorem listLoop_remembers_last objs hashes :
  (exists evs index,
     listLoop objs EOF hashes = (evs, Got index)
     /\ evs = replicate (S (length objs)) ListNext
     /\ forall k, index !! k = match remembered k objs with
                               | Some sum => Some sum
                               | None => hashes !! k
                               end)
  /\ (forall e, exists evs,
        listLoop objs (IterErr e) hashes = (evs, Failed e)
        /\ last evs = Some (Fatal e)
        /\ length evs = S (S (length objs))).
Proof.
  split.
  - eexists _, _. split; [apply listLoop_EOF|]. split; [reflexivity|].
    intros k. apply foldl_remember_last.
  - intros e. eexists. split; [apply listLoop_IterErr|]. split.
    + apply last_snoc.
    + rewrite length_app, length_replicate. simpl. lia.
Qed.

(** X3. When the listing of a bucket does not break, the loop calls
    [Next] once per stored object and once more, and the index holds
    under each key exactly the checksum the stored object exposes: none
    for a key that is not stored or whose object exposes no MD5. *)
Theorem listing_indexes_exposed_checksums w b :
  listFault w = None ->
  exists evs index,
    listLoop (Bucket_List w b).1 (Bucket_List w b).2 ∅ = (evs, Got index)
    /\ length evs = S (size (stored b))
    /\ forall k, index !! k = stored b !! k ≫= exposed_md5.
Proof.
  intros Hl. unfold Bucket_List. rewrite Hl. simpl.
  eexists _, _. split; [apply listLoop_EOF|]. split.
  - rewrite length_replicate, length_fmap, length_map_to_list. reflexivity.
  - intros k. apply (index_of_lookup (stored b)).
Qed.

(** ** The order of the calls of a run *)

Section Protocol.

Variable md5_Sum : bytes -> bytes.

Lemma iteration_of_loop w hashes f :
  Forall (fun e => of_loop e = true) (iteration md5_Sum w hashes f).
Proof.
  destruct (considered f) eqn:Hc.
  - destruct (content f) as [data|e] eqn:Hd.
    + destruct (hashes !! entry_name f) as [remoteSum|] eqn:Hh.
      * destruct (decide (md5_Sum data = remoteSum)) as [<-|Hne].
        -- rewrite (iteration_same md5_Sum w hashes f data) by assumption.
           repeat constructor.
        -- rewrite (iteration_differs md5_Sum w hashes f data remoteSum) by assumption.
           repeat constructor.
      * rewrite (iteration_absent md5_Sum w hashes f data) by assumption.
        repeat constructor.
    + rewrite (iteration_unreadable md5_Sum w hashes f e) by assumption.
      repeat constructor.
  - rewrite iteration_not_considered by assumption. repeat constructor.
Qed.

Lemma files_of_loop m w :
  Forall (fun e => of_loop e = true) (concat (files (Run md5_Sum m w))).
Proof.
  apply Forall_forall. intros e He.
  apply elem_of_concat in He as (evs & Hevs & He).
  apply list_elem_of_lookup in Hevs as Hi. destruct Hi as [i Hi].
  pose proof (Run_iterates _ _ _ _ _ Hi) as Hr.
  destruct (Run_reaches_archive md5_Sum m w Hr) as (_ & _ & _ & _ & _ & Ef & _).
  rewrite Ef in Hevs. apply loop_member in Hevs as [->|(f & _ & ->)].
  - apply list_elem_of_singleton in He as ->. reflexivity.
  - pose proof (iteration_of_loop w (index_of (objects w)) f) as H.
    rewrite Forall_forall in H. apply H. assumption.
Qed.

(** The calls of a run, stage by stage. *)
Lemma Run_trace m w :
  trace (Run md5_Sum m w)
  = (prologue m ++
     match openErr w with
     | Some _ => []
     | None =>
         replicate (S (length (Bucket_List w (opened w)).1)) ListNext ++
         match listFault w with
         | Some (_, e) => [Fatal e]
         | None => (getSiteTar m w).1 ++ concat (files (Run md5_Sum m w)) ++ [Close]
         end
     end)%list.
Proof.
  unfold trace, Run, blob_OpenBucket, prologue. fold (opened w).
  destruct (openErr w) as [e|]; [reflexivity|].
  unfold Bucket_List.
  destruct (listFault w) as [[n e]|]; cbn [fst snd].
  - rewrite listLoop_IterErr. cbn [setup files teardown concat].
    cbn [app]. rewrite !app_nil_r. reflexivity.
  - rewrite listLoop_EOF.
    destruct (getSiteTar m w) as [started [[fs tfin]|e]]; cbn [fst snd].
    + destruct (tarLoop _ _ _ _ _ _) as [[its b'] err]. cbn [setup files teardown].
      rewrite <- !app_assoc. reflexivity.
    + cbn [setup files teardown concat]. rewrite <- !app_assoc. reflexivity.
Qed.

Lemma filter_replicate_all {A} (P : A -> Prop) `{!forall x, Decision (P x)} n (x : A) :
  P x -> filter P (replicate n x) = replicate n x.
Proof.
  intros Hx. induction n as [|n IH]; [reflexivity|].
  simpl. rewrite filter_cons_True by assumption. rewrite IH. reflexivity.
Qed.

Lemma filter_outside_loop (P : Event -> Prop) `{!forall e, Decision (P e)} m w :
  (forall e, P e -> of_loop e = false) ->
  filter P (concat (files (Run md5_Sum m w))) = [].
Proof.
  intros HP. apply filter_empty. eapply Forall_impl; [apply files_of_loop|].
  intros e He HPe. apply HP in HPe. congruence.
Qed.

Lemma getSiteTar_events m w e :
  e ∈ (getSiteTar m w).1 ->
  e = StdoutPipe (git_archive m) \/ (e = Start (git_archive m) /\ pipeErr w = None).
Proof.
  unfold getSiteTar. destruct (pipeErr w) as [e1|]; [|destruct (startErr w) as [e2|]];
    cbn [fst]; intros H;
    repeat (apply elem_of_cons in H as [->|H]; [auto|]);
    apply elem_of_nil in H; destruct H.
Qed.

(** X4. Every run made from a list of options begins by setting
    AWS_REGION and AWS_PROFILE to the configured values (the empty string
    when the option was not given) and then opens the configured bucket;
    when opening fails it makes no other call and leaves the bucket as it
    is. *)
Theorem Run_begins_with_environment (ss : list Setting) w :
  let x := Run md5_Sum (New (option_of <$> ss)) w in
  take 3 (trace x)
  = [Setenv "AWS_REGION" (chosen region_of ss);
     Setenv "AWS_PROFILE" (chosen profile_of ss);
     OpenBucket (chosen url_of ss)]
  /\ (forall e, openErr w = Some e ->
                length (trace x) = 3 /\ files x = [] /\ remote x = objects w).
Proof.
  intros x. subst x. rewrite Run_trace, New_fields. split; [reflexivity|].
  intros e He. rewrite He. split; [reflexivity|].
  unfold Run, blob_OpenBucket. rewrite He. split; reflexivity.
Qed.

(** X5. A run that opened the bucket and returns, with an error or
    without, calls [bucket.Close] exactly once, as its last call; a run
    that could not open the bucket, or that exits, never calls it. *)
Theorem Run_closes_once_last m w :
  let x := Run md5_Sum m w in
  (forall err,
     openErr w = None -> outcome x = Returned err ->
     last (trace x) = Some Close
     /\ filter (fun e => is_close e = true) (trace x) = [Close])
  /\ (forall e, openErr w = Some e -> Close ∉ trace x)
  /\ (forall status, outcome x = Exited status -> Close ∉ trace x).
Proof.
  intros x. subst x.
  assert (Hexit : forall status, outcome (Run md5_Sum m w) = Exited status ->
                    openErr w = None /\ exists n e, listFault w = Some (n, e)).
  { intros status. unfold Run, blob_OpenBucket, Bucket_List.
    destruct (openErr w) as [e|]; [intros H; discriminate H|].
    destruct (listFault w) as [[n e]|].
    - intros _. split; [reflexivity|]. exists n, e. reflexivity.
    - rewrite listLoop_EOF. destruct (getSiteTar m w) as [started [[fs tfin]|e]].
      + destruct (tarLoop _ _ _ _ _ _) as [[its b'] err]. intros H. discriminate H.
      + intros H. discriminate H. }
  assert (Hfatal : forall n e, openErr w = None -> listFault w = Some (n, e) ->
                     outcome (Run md5_Sum m w) = Exited 1).
  { intros n e Ho Hl. unfold Run, blob_OpenBucket, Bucket_List.
    rewrite Ho, Hl, listLoop_IterErr. reflexivity. }
  assert (Hnone : forall n e, Close ∉ (prologue m ++ replicate n ListNext ++ [Fatal e])%list).
  { intros n e H. apply elem_of_app in H as [H|H].
    - repeat (apply elem_of_cons in H as [H|H]; [discriminate H|]).
      apply elem_of_nil in H. destruct H.
    - apply elem_of_app in H as [H|H].
      + apply elem_of_replicate in H as [H _]. discriminate H.
      + apply list_elem_of_singleton in H. discriminate H. }
  rewrite Run_trace. repeat apply conj.
  - intros err Ho Hret. rewrite Ho.
    destruct (listFault w) as [[n e]|] eqn:Hl.
    { rewrite (Hfatal n e Ho eq_refl) in Hret. discriminate Hret. }
    split.
    + rewrite !app_assoc. apply last_snoc.
    + rewrite !filter_app.
      rewrite (filter_outside_loop (fun e => is_close e = true));
        [|intros e He; destruct e; try discriminate He; reflexivity].
      assert (H1 : filter (fun e => is_close e = true) (getSiteTar m w).1 = []).
      { apply filter_empty, Forall_forall. intros e He Hc.
        apply getSiteTar_events in He as [->|[-> _]]; discriminate Hc. }
      assert (H2 : forall n, filter (fun e => is_close e = true) (replicate n ListNext) = []).
      { intros n. apply filter_empty, Forall_forall. intros e He Hc.
        apply elem_of_replicate in He as [-> _]. discriminate Hc. }
      rewrite H1, H2. reflexivity.
  - intros e Ho. rewrite Ho, app_nil_r. intros H.
    repeat (apply elem_of_cons in H as [H|H]; [discriminate H|]).
    apply elem_of_nil in H. destruct H.
  - intros status Hs. destruct (Hexit status Hs) as (Ho & n & e & Hl).
    rewrite Ho, Hl. apply Hnone.
Qed.

(** X6. In a run made from a list of options, git is called only after
    the bucket was opened and listed to the end, with one [Next] call per
    stored object and one more; the command is always
    "/usr/bin/git archive --format=tar HEAD" with an empty environment in
    the configured root, and it is started only when its output pipe could
    be made. *)
Theorem git_runs_after_complete_listing (ss : list Setting) w c :
  let x := Run md5_Sum (New (option_of <$> ss)) w in
  StdoutPipe c ∈ trace x \/ Start c ∈ trace x ->
  c = {| Path := "/usr/bin/git";
         Args := ["/usr/bin/git"; "archive"; "--format=tar"; "HEAD"];
         Env := [];
         Dir := chosen root_of ss |}
  /\ openErr w = None /\ listFault w = None
  /\ length (filter (fun e => is_list_next e = true) (trace x)) = S (size (objects w))
  /\ (Start c ∈ trace x -> pipeErr w = None).
Proof.
  intros x. subst x. set (m := New (option_of <$> ss)).
  assert (Hgit : forall e, is_git e = true -> e ∈ trace (Run md5_Sum m w) ->
                   openErr w = None /\ listFault w = None
                   /\ (e = StdoutPipe (git_archive m)
                       \/ (e = Start (git_archive m) /\ pipeErr w = None))).
  { intros e Hg. rewrite Run_trace. intros H.
    apply elem_of_app in H as [H|H].
    { repeat (apply elem_of_cons in H as [->|H]; [discriminate Hg|]).
      apply elem_of_nil in H. destruct H. }
    destruct (openErr w) as [e1|]; [apply elem_of_nil in H; destruct H|].
    apply elem_of_app in H as [H|H].
    { apply elem_of_replicate in H as [-> _]. discriminate Hg. }
    destruct (listFault w) as [[n e2]|].
    { apply list_elem_of_singleton in H as ->. discriminate Hg. }
    split; [reflexivity|]. split; [reflexivity|].
    apply elem_of_app in H as [H|H]; [apply getSiteTar_events; assumption|].
    apply elem_of_app in H as [H|H].
    - pose proof (files_of_loop m w) as Hf. rewrite Forall_forall in Hf.
      apply Hf in H. destruct e; discriminate.
    - apply list_elem_of_singleton in H as ->. discriminate Hg. }
  intros Hc.
  assert (Hc' : exists e, is_git e = true /\ e ∈ trace (Run md5_Sum m w)
                          /\ (e = StdoutPipe c \/ e = Start c)).
  { destruct Hc as [H|H]; eexists; (split; [|split; [exact H|auto]]); reflexivity. }
  destruct Hc' as (e & Hg & He & Hec).
  destruct (Hgit e Hg He) as (Ho & Hl & Hcmd).
  assert (Ecmd : c = git_archive m).
  { destruct Hec as [->| ->], Hcmd as [H|[H _]]; congruence. }
  split.
  { rewrite Ecmd. unfold git_archive, m. rewrite New_fields. reflexivity. }
  split; [assumption|]. split; [assumption|]. split.
  - rewrite Run_trace, Ho, Hl. unfold Bucket_List. rewrite Hl. cbn [fst].
    rewrite !filter_app.
    rewrite (filter_outside_loop (fun e => is_list_next e = true));
      [|intros e0 He0; destruct e0; try discriminate He0; reflexivity].
    assert (H1 : filter (fun e => is_list_next e = true) (getSiteTar m w).1 = []).
    { apply filter_empty, Forall_forall. intros e0 He0 Hc0.
      apply getSiteTar_events in He0 as [->|[-> _]]; discriminate Hc0. }
    rewrite H1, filter_replicate_all by reflexivity.
    rewrite !length_app, length_replicate, length_fmap, length_map_to_list.
    simpl. lia.
  - intros Hs. destruct (Hgit (Start c) eq_refl Hs) as (_ & _ & [H|[_ H]]);
      [discriminate H|assumption].
Qed.

End Protocol.

(** ** What a run writes and logs, in order *)

Section Order.

Variable md5_Sum : bytes -> bytes.

Lemma iteration_uploads_due w hashes f :
  uploads (iteration md5_Sum w hashes f)
  = option_list (upload_of w f <$> due md5_Sum hashes f).
Proof.
  unfold due.
  destruct (considered f) eqn:Hc.
  - destruct (content f) as [data|e] eqn:Hd.
    + destruct (hashes !! entry_name f) as [remoteSum|] eqn:Hh.
      * destruct (decide (md5_Sum data = remoteSum)) as [<-|Hne].
        -- rewrite (iteration_same md5_Sum w hashes f data) by assumption.
           rewrite bool_decide_eq_true_2 by reflexivity. reflexivity.
        -- rewrite (iteration_differs md5_Sum w hashes f data remoteSum) by assumption.
           rewrite bool_decide_eq_false_2 by congruence. reflexivity.
      * rewrite (iteration_absent md5_Sum w hashes f data) by assumption.
        rewrite bool_decide_eq_false_2 by discriminate. reflexivity.
    + rewrite (iteration_unreadable md5_Sum w hashes f e) by assumption. reflexivity.
  - rewrite iteration_not_considered by assumption. reflexivity.
Qed.

Lemma iteration_notices w hashes f :
  notices (iteration md5_Sum w hashes f) = option_list (notice_of md5_Sum hashes f).
Proof.
  unfold notice_of.
  destruct (considered f) eqn:Hc.
  - destruct (content f) as [data|e] eqn:Hd.
    + destruct (hashes !! entry_name f) as [remoteSum|] eqn:Hh.
      * destruct (decide (md5_Sum data = remoteSum)) as [<-|Hne].
        -- rewrite (iteration_same md5_Sum w hashes f data) by assumption.
           rewrite bool_decide_eq_true_2 by reflexivity. reflexivity.
        -- rewrite (iteration_differs md5_Sum w hashes f data remoteSum) by assumption.
           rewrite bool_decide_eq_false_2 by congruence. reflexivity.
      * rewrite (iteration_absent md5_Sum w hashes f data) by assumption.
        rewrite bool_decide_eq_false_2 by discriminate. reflexivity.
    + rewrite (iteration_unreadable md5_Sum w hashes f e) by assumption. reflexivity.
  - rewrite iteration_not_considered by assumption. reflexivity.
Qed.

Lemma filter_iterations (P : Event -> Prop) `{!forall e, Decision (P e)}
    (h : TarEntry -> option Event) w hashes fs :
  (forall f, filter P (iteration md5_Sum w hashes f) = option_list (h f)) ->
  filter P (concat (iteration md5_Sum w hashes <$> fs)) = omap h fs.
Proof.
  intros Hh. induction fs as [|f fs IH]; [reflexivity|].
  rewrite fmap_cons. cbn [concat]. rewrite filter_app, Hh, IH.
  simpl. destruct (h f); reflexivity.
Qed.

(** Of the calls of a run, those that a filter on loop calls keeps are
    calls of the archive loop. *)
Lemma Run_filter_loop (P : Event -> Prop) `{!forall e, Decision (P e)} m w :
  (forall e, P e -> of_loop e = true) ->
  filter P (trace (Run md5_Sum m w)) = filter P (concat (files (Run md5_Sum m w))).
Proof.
  intros HP.
  assert (Hnot : forall l, Forall (fun e => of_loop e = false) l -> filter P l = []).
  { intros l Hl. apply filter_empty. eapply Forall_impl; [exact Hl|].
    intros e He HPe. apply HP in HPe. congruence. }
  assert (Hrep : forall n, filter P (replicate n ListNext) = []).
  { intros n. apply Hnot, Forall_forall. intros e He.
    apply elem_of_replicate in He as [-> _]. reflexivity. }
  destruct (reaches_archive_dec w) as [Hr|Hr].
  - rewrite Run_trace. destruct Hr as (Ho & Hl & Hp & Hs). rewrite Ho, Hl.
    rewrite !filter_app, Hrep.
    rewrite (Hnot (prologue m)) by (repeat constructor).
    rewrite (Hnot (getSiteTar m w).1).
    + rewrite (Hnot [Close]) by (repeat constructor). rewrite app_nil_r. reflexivity.
    + apply Forall_forall. intros e He.
      apply getSiteTar_events in He as [->|[-> _]]; reflexivity.
  - destruct (Run_stops_early md5_Sum m w Hr) as (Ef & _ & _ & _).
    rewrite Ef. cbn [concat]. rewrite filter_nil.
    rewrite Run_trace, Ef. cbn [concat].
    destruct (openErr w) as [e|]; [rewrite app_nil_r; apply Hnot; repeat constructor|].
    rewrite !filter_app, Hrep, (Hnot (prologue m)) by (repeat constructor).
    destruct (listFault w) as [[n e]|]; [apply Hnot; repeat constructor|].
    rewrite !filter_app, (Hnot [Close]) by (repeat constructor).
    rewrite (Hnot (getSiteTar m w).1); [reflexivity|].
    apply Forall_forall. intros e He.
    apply getSiteTar_events in He as [->|[-> _]]; reflexivity.
Qed.

Lemma Run_filter_prefix (P : Event -> Prop) `{!forall e, Decision (P e)}
    (h : TarEntry -> option Event) m w :
  (forall e, P e -> of_loop e = true) ->
  ~ P TarNext ->
  (forall f, filter P (iteration md5_Sum w (index_of (objects w)) f) = option_list (h f)) ->
  filter P (trace (Run md5_Sum m w)) `prefix_of` omap h (archive w)
  /\ (outcome (Run md5_Sum m w) = Returned None ->
      filter P (trace (Run md5_Sum m w)) = omap h (archive w)).
Proof.
  intros HP Hnext Hh. rewrite Run_filter_loop by assumption.
  assert (Hend : filter P (concat [[TarNext]]) = []).
  { cbn [concat]. rewrite app_nil_r, filter_cons_False by assumption. reflexivity. }
  split.
  - destruct (reaches_archive_dec w) as [Hr|Hr].
    + destruct (Run_reaches_archive md5_Sum m w Hr) as (_ & _ & _ & _ & _ & Ef & _).
      rewrite Ef.
      destruct (loop_files md5_Sum w (index_of (objects w)) (opened w) (archive w)
                  (archiveEnd w)) as (n & rest & E & Hrest).
      rewrite E, concat_app, filter_app, (filter_iterations P h) by assumption.
      assert (Hr' : filter P (concat rest) = []).
      { destruct Hrest as [->|[-> _]]; [reflexivity|assumption]. }
      rewrite Hr', app_nil_r.
      rewrite <- (take_drop n (archive w)) at 2. rewrite omap_app.
      apply prefix_app_r. reflexivity.
    + destruct (Run_stops_early md5_Sum m w Hr) as (Ef & _).
      rewrite Ef. apply prefix_nil.
  - intros Hok. apply Run_success in Hok as (Ef & _).
    rewrite Ef, concat_app, filter_app, (filter_iterations P h), Hend by assumption.
    apply app_nil_r.
Qed.

(** X7. The [WriteAll] calls of a run follow the archive: they are, in
    archive order, the writes of the entries that are due (considered,
    read, and not recorded in the index with the MD5 of their bytes), up
    to the entry where the run stops; a run that returns nil makes all of
    them. *)
Theorem uploads_follow_the_archive m w :
  let x := Run md5_Sum m w in
  let planned :=
    omap (fun f => upload_of w f <$> due md5_Sum (index_of (objects w)) f) (archive w) in
  uploads (trace x) `prefix_of` planned
  /\ (outcome x = Returned None -> uploads (trace x) = planned).
Proof.
  intros x planned. subst x planned.
  apply (Run_filter_prefix (fun e => is_upload e = true)).
  - intros e He. destruct e; try discriminate He; reflexivity.
  - discriminate.
  - intros f. apply iteration_uploads_due.
Qed.

(** X8. The progress notices of a run follow the archive: one per
    considered entry whose bytes are read, "skipping" when the index
    holds the MD5 of the bytes and "uploading" otherwise, in archive
    order, up to the entry where the run stops; a run that returns nil
    logs all of them. *)
Theorem notices_follow_the_archive m w :
  let x := Run md5_Sum m w in
  let planned := omap (notice_of md5_Sum (index_of (objects w))) (archive w) in
  notices (trace x) `prefix_of` planned
  /\ (outcome x = Returned None -> notices (trace x) = planned).
Proof.
  intros x planned. subst x planned.
  apply (Run_filter_prefix (fun e => is_notice e = true)).
  - intros e He. destruct e; try discriminate He; reflexivity.
  - discriminate.
  - intros f. apply iteration_notices.
Qed.

End Order.

(** ** What a run reads, and what it leaves in the bucket *)

Section Outcome.

Variable md5_Sum : bytes -> bytes.

(** X9. The iteration that meets an entry calls [ReadAll] exactly once
    when the entry is a regular file outside the ignore set and not at
    all otherwise, and calls [md5.Sum] exactly once, on the bytes read,
    when moreover the read succeeds and the index has the entry's name,
    and not at all otherwise. *)
Theorem reads_and_checksums m w i f evs :
  archive w !! i = Some f ->
  files (Run md5_Sum m w) !! i = Some evs ->
  filter (fun e => is_read e = true) evs
  = (if considered f then [ReadAll (entry_name f)] else [])
  /\ filter (fun e => is_checksum e = true) evs
     = match considered f, content f, index_of (objects w) !! entry_name f with
       | true, Got data, Some _ => [Md5Sum data]
       | _, _, _ => []
       end.
Proof.
  intros Hf Hevs. rewrite (Run_iteration md5_Sum m w i f evs Hf Hevs).
  destruct (considered f) eqn:Hc.
  - destruct (content f) as [data|e] eqn:Hd.
    + destruct (index_of (objects w) !! entry_name f) as [remoteSum|] eqn:Hh.
      * destruct (decide (md5_Sum data = remoteSum)) as [<-|Hne].
        -- rewrite (iteration_same md5_Sum w _ f data) by assumption. split; reflexivity.
        -- rewrite (iteration_differs md5_Sum w _ f data remoteSum) by assumption.
           split; reflexivity.
      * rewrite (iteration_absent md5_Sum w _ f data) by assumption. split; reflexivity.
    + rewrite (iteration_unreadable md5_Sum w _ f e) by assumption. split; reflexivity.
  - rewrite iteration_not_considered by assumption. split; reflexivity.
Qed.

Lemma loop_stores_written w hashes b fs fin f data :
  (tarLoop md5_Sum w hashes b fs fin).2 = None ->
  consistent fs ->
  f ∈ fs -> written md5_Sum hashes f data ->
  stored (tarLoop md5_Sum w hashes b fs fin).1.2 !! entry_name f
  = Some (stored_for w f data).
Proof.
  revert b. induction fs as [|f0 fs IH]; intros b Hok Hcons Hf Hw.
  { apply elem_of_nil in Hf. destruct Hf. }
  assert (Hcons' : consistent fs).
  { intros g g' Hg Hg'. apply Hcons; right; assumption. }
  assert (Hkeep : forall b0,
            stored b0 !! entry_name f = Some (stored_for w f data) ->
            stored (tarLoop md5_Sum w hashes b0 fs fin).1.2 !! entry_name f
            = Some (stored_for w f data)).
  { intros b0 Hb0.
    apply (loop_invariant md5_Sum w hashes
             (fun b' => stored b' !! entry_name f = Some (stored_for w f data)));
      [assumption|].
    intros b' f' data' Hf' (Hc' & Hd' & _) Hb'. unfold Bucket_WriteAll.
    destruct (writeFault w (calls b')); cbn [fst stored]; [assumption|].
    destruct (decide (entry_name f' = entry_name f)) as [E|E].
    - rewrite E, lookup_insert_eq. f_equal.
      destruct Hw as (_ & Hd & _).
      pose proof (Hcons f' f (list_elem_of_further _ _ _ Hf') Hf E) as Hsame.
      assert (data' = data) as -> by congruence.
      reflexivity.
    - rewrite lookup_insert_ne by assumption. assumption. }
  simpl in Hok |- *.
  pose proof (step_upload md5_Sum w hashes b f0) as Hup.
  destruct (processFile md5_Sum w hashes b f0) as [[evs b1] flow].
  destruct flow as [|e]; [|discriminate Hok].
  specialize (IH b1). specialize (Hkeep b1).
  destruct (tarLoop md5_Sum w hashes b1 fs fin) as [[its b2] r]. simpl in *.
  apply elem_of_cons in Hf as [->|Hf].
  - apply Hkeep. destruct Hw as (Hc & Hd & Hh).
    destruct (Hup data Hc Hd Hh) as [-> Hflow].
    unfold Bucket_WriteAll in *. destruct (writeFault w (calls b)); simpl in *.
    + discriminate Hflow.
    + apply lookup_insert_eq.
  - apply IH; assumption.
Qed.

(** X10. After a run that returns nil on an archive that gives every
    name one content, the bucket holds, under the name of every regular,
    non-ignored entry, either the entry's bytes as this run wrote them
    (with the options inferred from the name), when they were due, or the
    object that was there before, whose exposed checksum is the MD5 of the
    entry's bytes. *)
Theorem successful_run_mirrors m w f data :
  outcome (Run md5_Sum m w) = Returned None ->
  consistent (archive w) ->
  f ∈ archive w -> considered f = true -> content f = Got data ->
  let x := Run md5_Sum m w in
  (due md5_Sum (index_of (objects w)) f = Some data
   /\ remote x !! entry_name f = Some (stored_for w f data))
  \/ (due md5_Sum (index_of (objects w)) f = None
      /\ remote x !! entry_name f = objects w !! entry_name f
      /\ objects w !! entry_name f ≫= exposed_md5 = Some (md5_Sum data)).
Proof.
  intros Hok Hcons Hf Hc Hd x. subst x. unfold due. rewrite Hc, Hd.
  destruct (decide (index_of (objects w) !! entry_name f = Some (md5_Sum data)))
    as [Hsame|Hdiff].
  - right. rewrite bool_decide_eq_true_2 by assumption.
    split; [reflexivity|]. split; [|rewrite <- index_of_lookup; assumption].
    apply (Run_invariant md5_Sum
             (fun s => s !! entry_name f = objects w !! entry_name f)); [reflexivity|].
    intros s f' data' Hf' (Hc' & Hd' & Hh') Hs.
    rewrite lookup_insert_ne; [assumption|].
    intros E. pose proof (Hcons f' f Hf' Hf E) as Hcontent.
    assert (data' = data) as -> by congruence.
    apply Hh'. rewrite E. assumption.
  - left. rewrite bool_decide_eq_false_2 by assumption.
    split; [reflexivity|].
    destruct (reaches_archive_dec w) as [Hr|Hr].
    + destruct (Run_reaches_archive md5_Sum m w Hr) as (_ & _ & _ & _ & _ & _ & Er & Eo).
      rewrite Er. rewrite Eo in Hok. injection Hok as Hok.
      apply loop_stores_written; try assumption. repeat split; assumption.
    + destruct (Run_stops_early md5_Sum m w Hr) as (_ & _ & _ & Hne). contradiction.
Qed.

Lemma loop_nonempty w hashes b fs fin :
  (tarLoop md5_Sum w hashes b fs fin).1.1 <> [].
Proof.
  destruct fs as [|f fs]; simpl.
  - destruct fin; discriminate.
  - destruct (processFile md5_Sum w hashes b f) as [[evs b1] flow].
    destruct flow; [|discriminate].
    destruct (tarLoop md5_Sum w hashes b1 fs fin) as [[its b2] r]. discriminate.
Qed.

(** A loop that makes [i + 1] iterations over more than [i] entries
    stops with an error at entry [i], and leaves the bucket as the loop
    over the first [i] entries does. *)
Lemma loop_stops w hashes b fs fin i :
  length (tarLoop md5_Sum w hashes b fs fin).1.1 = S i ->
  i < length fs ->
  (exists e, (tarLoop md5_Sum w hashes b fs fin).2 = Some e)
  /\ (tarLoop md5_Sum w hashes b (take i fs) EOF).2 = None
  /\ stored (tarLoop md5_Sum w hashes b fs fin).1.2
     = stored (tarLoop md5_Sum w hashes b (take i fs) EOF).1.2.
Proof.
  revert b i. induction fs as [|f fs IH]; intros b i Hlen Hi; [simpl in Hi; lia|].
  pose proof (step_bucket md5_Sum w hashes b f) as Hb.
  pose proof (step_upload md5_Sum w hashes b f) as Hup.
  destruct i as [|i].
  - cbn [take]. simpl in Hlen |- *.
    destruct (processFile md5_Sum w hashes b f) as [[evs b1] flow]. simpl in Hb, Hup.
    destruct flow as [|e].
    + pose proof (loop_nonempty w hashes b1 fs fin) as Hne.
      destruct (tarLoop md5_Sum w hashes b1 fs fin) as [[its b2] r]. simpl in *.
      destruct its; [contradiction|discriminate Hlen].
    + simpl. split; [exists e; reflexivity|]. split; [reflexivity|].
      destruct Hb as [(_ & -> & _)|(data & (Hc & Hd & Hh) & _ & _)]; [reflexivity|].
      destruct (Hup data Hc Hd Hh) as [-> Hflow].
      unfold Bucket_WriteAll in *. destruct (writeFault w (calls b)); simpl in *;
        [reflexivity|discriminate Hflow].
  - cbn [take]. simpl in Hlen, Hi |- *.
    destruct (processFile md5_Sum w hashes b f) as [[evs b1] flow].
    destruct flow as [|e]; [|simpl in Hlen; discriminate Hlen].
    specialize (IH b1 i).
    destruct (tarLoop md5_Sum w hashes b1 fs fin) as [[its b2] r].
    destruct (tarLoop md5_Sum w hashes b1 (take i fs) EOF) as [[its' b2'] r'].
    simpl in *. apply IH; lia.
Qed.

Lemma tarLoop_first_entries n w hashes b fs fin :
  tarLoop md5_Sum (first_entries n w) hashes b fs fin = tarLoop md5_Sum w hashes b fs fin.
Proof.
  revert b. induction fs as [|f fs IH]; intros b; [reflexivity|].
  simpl. change (processFile md5_Sum (first_entries n w) hashes b f)
    with (processFile md5_Sum w hashes b f).
  destruct (processFile md5_Sum w hashes b f) as [[evs b1] flow].
  destruct flow; [|reflexivity]. rewrite IH. reflexivity.
Qed.

(** X11. A run that stops in the archive loop before the end of the
    archive returns an error and rolls nothing back: it leaves the bucket
    exactly as a run over the entries before the one it stopped at, which
    returns nil, leaves it. *)
Theorem failed_run_keeps_progress m w i :
  length (files (Run md5_Sum m w)) = S i ->
  i < length (archive w) ->
  (exists e, outcome (Run md5_Sum m w) = Returned (Some e))
  /\ outcome (Run md5_Sum m (first_entries i w)) = Returned None
  /\ remote (Run md5_Sum m w) = remote (Run md5_Sum m (first_entries i w)).
Proof.
  intros Hlen Hi.
  assert (Hr : reaches_archive w).
  { destruct (files (Run md5_Sum m w)) as [|evs its] eqn:E; [discriminate Hlen|].
    apply (Run_iterates md5_Sum m w 0 evs). rewrite E. reflexivity. }
  assert (Hr' : reaches_archive (first_entries i w)) by exact Hr.
  destruct (Run_reaches_archive md5_Sum m w Hr) as (_ & _ & _ & _ & _ & Ef & Er & Eo).
  destruct (Run_reaches_archive md5_Sum m _ Hr') as (_ & _ & _ & _ & _ & _ & Er' & Eo').
  rewrite Er, Eo, Er', Eo'. rewrite Ef in Hlen.
  cbn [archive archiveEnd objects first_entries].
  change (opened (first_entries i w)) with (opened w).
  rewrite tarLoop_first_entries.
  destruct (loop_stops w (index_of (objects w)) (opened w) (archive w) (archiveEnd w) i
              Hlen Hi) as ((e & He) & Hnil & Hst).
  rewrite He, Hnil, Hst. split; [exists e; reflexivity|]. split; reflexivity.
Qed.

End Outcome.

(** ** The first deployment *)

Section FirstRun.

Variable md5_Sum : bytes -> bytes.

(** X12. Against an empty bucket, a run that returns nil writes every
    regular, non-ignored entry of the archive, in archive order, each
    under its name with the bytes read: as many [WriteAll] calls as there
    are such entries. *)
Theorem first_deployment_uploads_all m w :
  objects w = ∅ ->
  outcome (Run md5_Sum m w) = Returned None ->
  uploads (trace (Run md5_Sum m w))
  = omap (fun f => if considered f
                   then match content f with
                        | Got data => Some (upload_of w f data)
                        | Failed _ => None
                        end
                   else None) (archive w)
  /\ length (uploads (trace (Run md5_Sum m w)))
     = length (filter (fun f => considered f = true) (archive w)).
Proof.
  intros Hempty Hok.
  set (h := fun f => if considered f
                     then match content f with
                          | Got data => Some (upload_of w f data)
                          | Failed _ => None
                          end
                     else None).
  assert (E : uploads (trace (Run md5_Sum m w)) = omap h (archive w)).
  { apply (Run_filter_prefix md5_Sum (fun e => is_upload e = true) h m w); try assumption.
    - intros e He. destruct e; try discriminate He; reflexivity.
    - discriminate.
    - intros f. rewrite iteration_uploads_due. unfold due, h.
      destruct (considered f); [|reflexivity].
      destruct (content f) as [data|e]; [|reflexivity].
      rewrite bool_decide_eq_false_2; [reflexivity|].
      rewrite index_of_lookup, Hempty, lookup_empty. discriminate. }
  split; [exact E|]. rewrite E. clear E.
  apply Run_success in Hok as (_ & Hall).
  induction Hall as [|f fs Hf Hall IH]; [reflexivity|].
  simpl. rewrite filter_cons. unfold h at 1.
  destruct (considered f) eqn:Hc.
  - destruct (Hf eq_refl) as (data & ->). rewrite decide_True by reflexivity.
    simpl. f_equal. exact IH.
  - rewrite decide_False by discriminate. exact IH.
Qed.

End FirstRun.

(** ** The further properties on concrete runs *)

Lemma listing_indexes_exposed_checksums_witness :
  let w := world {[ "a.txt" := object "same"; "b.bin" := opaque_object "b" ]} [] in
  exists evs index,
    listLoop (Bucket_List w (opened w)).1 (Bucket_List w (opened w)).2 ∅ = (evs, Got index)
    /\ length evs = S (size (stored (opened w)))
    /\ forall k, index !! k = stored (opened w) !! k ≫= exposed_md5.
Proof.
  intros w. apply (listing_indexes_exposed_checksums w (opened w)). reflexivity.
Defined.

Lemma git_runs_after_complete_listing_witness :
  let ss := [GitRepoRoot "/srv/site"; BucketURL "s3://example.com"] in
  let w := world {[ "a.txt" := object "same" ]} [file "a.txt" "same"] in
  let c := {| Path := "/usr/bin/git";
              Args := ["/usr/bin/git"; "archive"; "--format=tar"; "HEAD"];
              Env := [];
              Dir := "/srv/site" |} in
  let x := Run md5.Sum (New (option_of <$> ss)) w in
  c = {| Path := "/usr/bin/git";
         Args := ["/usr/bin/git"; "archive"; "--format=tar"; "HEAD"];
         Env := [];
         Dir := chosen root_of ss |}
  /\ openErr w = None /\ listFault w = None
  /\ length (filter (fun e => is_list_next e = true) (trace x)) = S (size (objects w))
  /\ (Start c ∈ trace x -> pipeErr w = None).
Proof.
  intros ss w c x.
  apply (git_runs_after_complete_listing md5.Sum ss w c).
  right. vm_compute. do 6 apply list_elem_of_further. apply list_elem_of_here.
Defined.

Lemma reads_and_checksums_witness :
  let w := world {[ "index.html" := object "old" ]}
                 [file "index.html" "new content"; file "readme.md" "hi"] in
  let f := file "index.html" "new content" in
  let evs := [TarNext; ReadAll "index.html"; Md5Sum (bytes_of "new content");
              Printf "uploading index.html…";
              WriteAll "index.html" (bytes_of "new content")
                (Some {| ContentType := "text/html; charset=utf-8" |})] in
  filter (fun e => is_read e = true) evs
  = (if considered f then [ReadAll (entry_name f)] else [])
  /\ filter (fun e => is_checksum e = true) evs
     = match considered f, content f, index_of (objects w) !! entry_name f with
       | true, Got data, Some _ => [Md5Sum data]
       | _, _, _ => []
       end.
Proof.
  intros w f evs.
  apply (reads_and_checksums md5.Sum site w 0 f evs); vm_compute; reflexivity.
Defined.

Lemma successful_run_mirrors_witness :
  let w := world {[ "index.html" := object "old" ]}
                 [file "index.html" "new content"; file "readme.md" "hi"] in
  let f := file "index.html" "new content" in
  let data := bytes_of "new content" in
  let x := Run md5.Sum site w in
  (due md5.Sum (index_of (objects w)) f = Some data
   /\ remote x !! entry_name f = Some (stored_for w f data))
  \/ (due md5.Sum (index_of (objects w)) f = None
      /\ remote x !! entry_name f = objects w !! entry_name f
      /\ objects w !! entry_name f ≫= exposed_md5 = Some (md5.Sum data)).
Proof.
  intros w f data.
  apply (successful_run_mirrors md5.Sum site w f data).
  - vm_compute. reflexivity.
  - intros g g' Hg Hg' E. unfold w, world, archive in Hg, Hg'.
    apply elem_of_cons in Hg as [->|Hg]; [|apply list_elem_of_singleton in Hg as ->];
      (apply elem_of_cons in Hg' as [->|Hg']; [|apply list_elem_of_singleton in Hg' as ->]);
      first [reflexivity | discriminate E].
  - apply list_elem_of_here.
  - vm_compute. reflexivity.
  - reflexivity.
Defined.

Lemma failed_run_keeps_progress_witness :
  let w := write_breaks (world ∅ [file "a.txt" "a"; file "b.txt" "b"; file "c.txt" "c"])
                        1 "AccessDenied" in
  (exists e, outcome (Run md5.Sum site w) = Returned (Some e))
  /\ outcome (Run md5.Sum site (first_entries 1 w)) = Returned None
  /\ remote (Run md5.Sum site w) = remote (Run md5.Sum site (first_entries 1 w)).
Proof.
  intros w. apply (failed_run_keeps_progress md5.Sum site w 1).
  - vm_compute. reflexivity.
  - vm_compute. lia.
Defined.

Lemma first_deployment_uploads_all_witness :
  let w := world ∅ [file ".gitignore" "*.o"; directory "docs/";
                    file "docs/index.html" "<p>"; file "style.css" "body{}"] in
  uploads (trace (Run md5.Sum site w))
  = omap (fun f => if considered f
                   then match content f with
                        | Got data => Some (upload_of w f data)
                        | Failed _ => None
                        end
                   else None) (archive w)
  /\ length (uploads (trace (Run md5.Sum site w)))
     = length (filter (fun f => considered f = true) (archive w)).
Proof.
  intros w. apply (first_deployment_uploads_all md5.Sum site w).
  - reflexivity.
  - vm_compute. reflexivity.
Defined.

(** A failed second write keeps the first: the bucket holds "a.txt" and
    nothing else. *)
Example progress_is_kept :
  let w := write_breaks (world ∅ [file "a.txt" "a"; file "b.txt" "b"; file "c.txt" "c"])
                        1 "AccessDenied" in
  let x := Run md5.Sum site w in
  outcome x = Returned (Some "upload file: AccessDenied")
  /\ body <$> remote x !! "a.txt" = Some (bytes_of "a")
  /\ remote x !! "b.txt" = None
  /\ remote x !! "c.txt" = None
  /\ length (files x) = 2.
Proof. vm_compute. repeat split; reflexivity. Qed.
